(** * ghisa: a CORS-friendly HTTP forwarding gateway (server.go)

    A shallow embedding of [proxyHandler] and [healthHandler] together with
    the parts of Go's [net/http], [net/textproto], [net/url] and
    [net/http/httptest] that they drive.

    - Go strings and byte slices are byte sequences: they are [string]s
      (sequences of 8-bit [ascii]) here.
    - [http.Header] and [url.Values] are [map[string][]string]: a
      [gmap string (list string)].
    - The response writer is the recorder of [net/http/httptest], the one
      the test-suite hands to the handlers.
    - The URL library and the HTTP client are not part of the repository:
      they are parameters of the development (the classes [NetURL] and
      [NetHTTP]), and the client threads an explicit state of the outside
      world. *)

From Stdlib Require Import Ascii String.
From stdpp Require Import gmap strings list fin_maps.

Local Open Scope string_scope.
Local Open Scope list_scope.
Local Open Scope nat_scope.

(** ** Bytes and text *)

(** The line feed that [fmt.Fprintln] appends. *)
Definition LF : string := String (ascii_of_nat 10) EmptyString.

Definition is_lower (c : ascii) : bool :=
  let n := nat_of_ascii c in ((97 <=? n) && (n <=? 122))%nat.

Definition is_upper (c : ascii) : bool :=
  let n := nat_of_ascii c in ((65 <=? n) && (n <=? 90))%nat.

Definition is_digit (c : ascii) : bool :=
  let n := nat_of_ascii c in ((48 <=? n) && (n <=? 57))%nat.

Definition to_upper (c : ascii) : ascii := ascii_of_nat (nat_of_ascii c - 32).
Definition to_lower (c : ascii) : ascii := ascii_of_nat (nat_of_ascii c + 32).

(** [httpguts.IsTokenRune] restricted to bytes: the [tchar]s of RFC 7230,
    that is letters, digits and [! # $ % & ' * + - . ^ _ ` | ~]. *)
Definition isTokenByte (c : ascii) : bool :=
  is_lower c || is_upper c || is_digit c ||
  existsb (Nat.eqb (nat_of_ascii c))
    [33; 35; 36; 37; 38; 39; 42; 43; 45; 46; 94; 95; 96; 124; 126].

Fixpoint all_bytes (p : ascii -> bool) (s : string) : bool :=
  match s with
  | EmptyString => true
  | String c s' => p c && all_bytes p s'
  end.

(** ** net/textproto: canonical header keys *)

(** The rewriting loop of [canonicalMIMEHeaderKey]: the first letter and
    every letter after a hyphen in upper case, all the others in lower
    case. [upper] says whether the next byte starts a word. *)
Fixpoint canon_loop (upper : bool) (s : string) : string :=
  match s with
  | EmptyString => EmptyString
  | String c s' =>
      let c' := if upper && is_lower c then to_upper c
                else if negb upper && is_upper c then to_lower c
                else c in
      String c' (canon_loop (Ascii.eqb c' "-"%char) s')
  end.

(** [textproto.CanonicalMIMEHeaderKey]: a key holding a byte that is not a
    valid header field byte (a space included) is returned unchanged. *)
Definition CanonicalMIMEHeaderKey (s : string) : string :=
  if all_bytes isTokenByte s then canon_loop true s else s.

(** ** net/http: header maps *)

Abbreviation Header := (gmap string (list string)).

Definition Header_Set (h : Header) (key value : string) : Header :=
  <[CanonicalMIMEHeaderKey key := [value]]> h.

Definition Header_Values (h : Header) (key : string) : list string :=
  default [] (h !! CanonicalMIMEHeaderKey key).

Definition Header_Add (h : Header) (key value : string) : Header :=
  <[CanonicalMIMEHeaderKey key := Header_Values h key ++ [value]]> h.

Definition Header_Get (h : Header) (key : string) : string :=
  match Header_Values h key with
  | [] => ""
  | v :: _ => v
  end.

Definition Header_Del (h : Header) (key : string) : Header :=
  delete (CanonicalMIMEHeaderKey key) h.

(** ** net/url: query values *)

(** [Values.Get]: the first value under the key, or the empty string when
    there is none. The key is used as it is. *)
Definition Values_Get (v : gmap string (list string)) (key : string) : string :=
  match v !! key with
  | Some (x :: _) => x
  | _ => ""
  end.

(** ** io: readers *)

(** A body as the handler sees it through [io.ReadAll]: no body at all
    ([nil] on a client request, [http.NoBody] on a server one), a stream
    that delivers [data] and then EOF, or a stream whose read fails. *)
Inductive Reader :=
  | NoBody
  | Data (data : string)
  | Broken.

(** [io.ReadAll]; [None] stands for a non-nil error (the handlers drop the
    bytes read before it). *)
Definition io_ReadAll (r : Reader) : option string :=
  match r with
  | NoBody => Some ""
  | Data data => Some data
  | Broken => None
  end.

(** ** net/http: status codes and method names *)

Definition StatusOK : nat := 200.
Definition StatusBadRequest : nat := 400.
Definition StatusNotFound : nat := 404.
Definition StatusMethodNotAllowed : nat := 405.
Definition StatusInternalServerError : nat := 500.

Definition MethodGet : string := "GET".
Definition MethodPost : string := "POST".

(** [validMethod]: a non-empty token. *)
Definition validMethod (method : string) : bool :=
  negb (String.eqb method "") && all_bytes isTokenByte method.

(** ** net/http: responses *)

Record Response := {
  StatusCode : nat;
  RespHeader : Header;
  RespBody : Reader
}.

(** ** The libraries the handlers are linked against *)

(** [net/url]. [url_Parse] is [url.Parse] ([None] for a non-nil error),
    [url_String] is [URL.String], [url_Query] is [URL.Query] (the
    parsed query string), [url_Path] the [Path] field, and
    [removeEmptyPort] the clean-up of the [Host] field that
    [http.NewRequest] applies to the URL it has parsed. *)
Class NetURL := {
  URL : Type;
  url_Parse : string -> option URL;
  url_String : URL -> string;
  url_Query : URL -> gmap string (list string);
  url_Path : URL -> string;
  removeEmptyPort : URL -> URL
}.

(** [http.Request], the fields the handlers touch. *)
Record Request `{NetURL} := {
  Method : string;
  ReqURL : URL;
  ReqHeader : Header;
  ReqBody : Reader
}.

(** The HTTP client and the content sniffer. [client_Do] is
    [http.Client.Do] on a zero-valued client: it talks to the outside
    world, whose state it threads, and yields a response or fails ([None]).
    [DetectContentType] is [http.DetectContentType]. [range_Header] is
    the order in which a [for ... range] loop visits the entries of a
    header map: Go leaves it unspecified, so it is any enumeration of the
    entries. *)
Class NetHTTP `{NetURL} := {
  World : Type;
  client_Do : Request -> World -> option Response * World;
  DetectContentType : string -> string;
  range_Header : Header -> list (string * list string);
  range_Header_perm : forall h, range_Header h ≡ₚ map_to_list h
}.

(** ** Panics *)

(** A Go call either returns or panics. The only panic the handlers can
    meet is the one [WriteHeader] raises on a status code that does not
    have three digits. *)
Inductive Exec (A : Type) : Type :=
  | Ret (a : A)
  | Panic (code : nat).
Arguments Ret {A} a.
Arguments Panic {A} code.

#[export] Instance Exec_ret : MRet Exec := fun A a => Ret a.
#[export] Instance Exec_bind : MBind Exec := fun A B f m =>
  match m with
  | Ret a => f a
  | Panic code => Panic code
  end.

(** ** net/http/httptest: the response recorder *)

Record ResponseRecorder := {
  Code : nat;
  HeaderMap : Header;
  Body : string;
  wroteHeader : bool;
  snapHeader : option Header
}.

(** [httptest.NewRecorder]. *)
Definition NewRecorder : ResponseRecorder :=
  {| Code := 200; HeaderMap := ∅; Body := ""; wroteHeader := false;
     snapHeader := None |}.

(** The handlers change the header map through [w.Header()], which hands
    out the live map [HeaderMap]. *)
Definition update_Header (f : Header -> Header) (w : ResponseRecorder)
  : ResponseRecorder :=
  {| Code := Code w; HeaderMap := f (HeaderMap w); Body := Body w;
     wroteHeader := wroteHeader w; snapHeader := snapHeader w |}.

(** [checkWriteHeaderCode] accepts the codes of three digits. *)
Definition validWriteHeaderCode (code : nat) : bool :=
  (100 <=? code) && (code <=? 999).

(** [WriteHeader]: the first call commits the status code and a snapshot
    of the header map; later calls do nothing. A first call with a code
    that [checkWriteHeaderCode] refuses panics. *)
Definition WriteHeader (w : ResponseRecorder) (code : nat)
  : Exec ResponseRecorder :=
  if wroteHeader w then Ret w
  else if validWriteHeaderCode code then
    Ret {| Code := code; HeaderMap := HeaderMap w; Body := Body w;
           wroteHeader := true; snapHeader := Some (HeaderMap w) |}
  else Panic code.

Definition has_key (h : Header) (key : string) : bool :=
  match h !! key with
  | Some _ => true
  | None => false
  end.

(** The body that [http.NewRequest] gives a client request: a reader of
    known length zero (the [strings.Reader] of an empty string) is replaced
    by [http.NoBody]; any other body is kept. *)
Definition client_body (body : Reader) : Reader :=
  match body with
  | Data EmptyString => NoBody
  | _ => body
  end.

Section Recorder.
Context `{NetHTTP}.

(** [writeHeader]: a write before any [WriteHeader] commits status 200,
    after sniffing a content type when none is set. *)
Definition writeHeader (w : ResponseRecorder) (b : string)
  : Exec ResponseRecorder :=
  if wroteHeader w then Ret w
  else
    let m := HeaderMap w in
    let hasType := has_key m "Content-Type" in
    let hasTE := negb (String.eqb (Header_Get m "Transfer-Encoding") "") in
    let w := if negb hasType && negb hasTE
             then update_Header
                    (fun m => Header_Set m "Content-Type" (DetectContentType b)) w
             else w in
    WriteHeader w 200.

(** [Write]: the bytes are appended to the recorded body. *)
Definition Write (w : ResponseRecorder) (buf : string) : Exec ResponseRecorder :=
  w ← writeHeader w buf;
  Ret {| Code := Code w; HeaderMap := HeaderMap w; Body := Body w +:+ buf;
         wroteHeader := wroteHeader w; snapHeader := snapHeader w |}.

(** [fmt.Fprintln] of one string. *)
Definition Fprintln (w : ResponseRecorder) (s : string) : Exec ResponseRecorder :=
  Write w (s +:+ LF).

(** [http.Error]: the Content-Length header is dropped, the content type
    is reset to plain text, then the status and the message are written. *)
Definition http_Error (w : ResponseRecorder) (error : string) (code : nat)
  : Exec ResponseRecorder :=
  let w := update_Header (fun h => Header_Del h "Content-Length") w in
  let w := update_Header
             (fun h => Header_Set h "Content-Type" "text/plain; charset=utf-8") w in
  let w := update_Header
             (fun h => Header_Set h "X-Content-Type-Options" "nosniff") w in
  w ← WriteHeader w code;
  Fprintln w error.

(** [http.NotFound]. *)
Definition http_NotFound (w : ResponseRecorder) : Exec ResponseRecorder :=
  http_Error w "404 page not found" StatusNotFound.

(** [ResponseRecorder.Result]: the response the caller of the handler
    gets, with the headers as they were when the status was committed. *)
Definition Result (w : ResponseRecorder) : Response :=
  {| StatusCode := if Code w =? 0 then 200 else Code w;
     RespHeader := default (HeaderMap w) (snapHeader w);
     RespBody := Data (Body w) |}.

(** [http.NewRequest]: an empty method means GET, the method must be a
    token and the URL must parse; the new request has an empty header
    map, and [client_body] of the body it was given. *)
Definition http_NewRequest (method url : string) (body : Reader)
  : option Request :=
  let method := if String.eqb method "" then "GET" else method in
  if negb (validMethod method) then None
  else match url_Parse url with
       | None => None
       | Some u =>
           Some {| Method := method; ReqURL := removeEmptyPort u;
                   ReqHeader := ∅; ReqBody := client_body body |}
       end.

(** The assignment [req.Header = h]. *)
Definition set_ReqHeader (req : Request) (h : Header) : Request :=
  {| Method := Method req; ReqURL := ReqURL req; ReqHeader := h;
     ReqBody := ReqBody req |}.

End Recorder.

(** ** server.go *)

Section Handlers.
Context `{NetHTTP}.

(** What one run of a handler leaves behind: the response writer (or the
    panic that ended the run), the outside world, and the requests handed
    to the HTTP client, in order. *)
Record Served := {
  writer : Exec ResponseRecorder;
  world : World;
  outbound : list Request
}.

(** The inner loop of lines 69-71: [w.Header().Add(key, value)] for each
    value. *)
Definition add_values (h : Header) (key : string) (values : list string)
  : Header :=
  foldl (fun h value => Header_Add h key value) h values.

(** The loop of lines 68-72 over the entries of [resp.Header]. *)
Definition copy_headers (entries : list (string * list string)) (h : Header)
  : Header :=
  foldl (fun h '(key, values) => add_values h key values) h entries.

(** Lines 18-20. *)
Definition set_cors (w : ResponseRecorder) : ResponseRecorder :=
  let w := update_Header
             (fun h => Header_Set h "Access-Control-Allow-Origin" "*") w in
  let w := update_Header
             (fun h => Header_Set h "Access-Control-Allow-Methods"
                         "GET, POST, OPTIONS") w in
  update_Header
    (fun h => Header_Set h "Access-Control-Allow-Headers" "Content-Type") w.

(** Lines 60-80: run the outbound request and relay the answer. *)
Definition relay (w : ResponseRecorder) (req : Request) (σ : World) : Served :=
  let (answer, σ') := client_Do req σ in
  match answer with
  | None =>
      {| writer := http_Error w "GHISA: Failed to make request"
                     StatusInternalServerError;
         world := σ'; outbound := [req] |}
  | Some resp =>
      let w := update_Header
                 (copy_headers (range_Header (RespHeader resp))) w in
      {| writer :=
           w ← WriteHeader w (StatusCode resp);
           match io_ReadAll (RespBody resp) with
           | None =>
               http_Error w "GHISA: Failed to read response body"
                 StatusInternalServerError
           | Some body => Write w body
           end;
         world := σ'; outbound := [req] |}
  end.

Definition proxyHandler (w : ResponseRecorder) (r : Request) (σ : World)
  : Served :=
  let w := set_cors w in
  if String.eqb (Method r) "OPTIONS" then
    {| writer := Ret w; world := σ; outbound := [] |}
  else
    let targetURL := Values_Get (url_Query (ReqURL r)) "url" in
    if String.eqb targetURL "" then
      {| writer := http_Error w "Missing url parameter" StatusBadRequest;
         world := σ; outbound := [] |}
    else
      match url_Parse targetURL with
      | None =>
          {| writer := http_Error w "Invalid url parameter" StatusBadRequest;
             world := σ; outbound := [] |}
      | Some proxyURL =>
          (* lines 38-58: the request, or the message of the failure *)
          let built : string + Request :=
            if String.eqb (Method r) MethodPost then
              match io_ReadAll (ReqBody r) with
              | None => inl "GHISA: Failed to read request body"
              | Some body =>
                  match http_NewRequest MethodPost (url_String proxyURL)
                          (Data body) with
                  | None => inl "GHISA: Failed to create request"
                  | Some req => inr (set_ReqHeader req (ReqHeader r))
                  end
              end
            else
              match http_NewRequest MethodGet (url_String proxyURL) NoBody with
              | None => inl "GHISA: Failed to create request"
              | Some req => inr (set_ReqHeader req (ReqHeader r))
              end in
          match built with
          | inl msg =>
              {| writer := http_Error w msg StatusInternalServerError;
                 world := σ; outbound := [] |}
          | inr req => relay w req σ
          end
      end.

Definition healthHandler (w : ResponseRecorder) (req : Request)
  : Exec ResponseRecorder :=
  if negb (String.eqb (Method req) MethodGet) then
    http_Error w "Method not allowed" StatusMethodNotAllowed
  else if negb (String.eqb (url_Path (ReqURL req)) "/health") then
    http_NotFound w
  else
    w ← WriteHeader w StatusOK;
    Write w "Server is healthy".

End Handlers.

(** ** The vocabulary of the properties *)

(** [value] is the first value recorded under [key]. *)
Definition leads (h : Header) (key value : string) : Prop :=
  exists rest, h !! CanonicalMIMEHeaderKey key = Some (value :: rest).

(** The values that a list of header entries holds for [key], entry after
    entry: those of the entries whose key has the canonical form of
    [key]. *)
Fixpoint values_for (key : string) (entries : list (string * list string))
  : list string :=
  match entries with
  | [] => []
  | (k, values) :: rest =>
      (if decide (CanonicalMIMEHeaderKey k = CanonicalMIMEHeaderKey key)
       then values else []) ++ values_for key rest
  end.

Definition cors (h : Header) : Prop :=
  Header_Get h "Access-Control-Allow-Origin" = "*" /\
  Header_Get h "Access-Control-Allow-Methods" = "GET, POST, OPTIONS" /\
  Header_Get h "Access-Control-Allow-Headers" = "Content-Type".

(** The invariant behind [cors]: each CORS value is the first one under
    its name. *)
Definition cors_lead (h : Header) : Prop :=
  leads h "Access-Control-Allow-Origin" "*" /\
  leads h "Access-Control-Allow-Methods" "GET, POST, OPTIONS" /\
  leads h "Access-Control-Allow-Headers" "Content-Type".

(** What [http.Error] does to a header map. *)
Definition error_headers (h : Header) : Header :=
  Header_Set
    (Header_Set (Header_Del h "Content-Length")
       "Content-Type" "text/plain; charset=utf-8")
    "X-Content-Type-Options" "nosniff".

(** The response of the preflight short-circuit. *)
Definition preflight : ResponseRecorder := set_cors NewRecorder.

(** Nothing has been committed on the writer yet: the state in which a
    handler receives it. *)
Definition uncommitted (w : ResponseRecorder) : Prop :=
  wroteHeader w = false /\ snapHeader w = None.

Section Vocabulary.
Context `{NetHTTP}.

(** The [url] query parameter of a request, when there is one. *)
Definition url_param (r : Request) : option string :=
  url_Query (ReqURL r) !! "url" ≫= head.

(** The request that leaves the gateway: [method], the URL that
    [http.NewRequest] made of the target, the headers of the inbound
    request [r], and [body]. *)
Definition forwarded (method : string) (u : URL) (r : Request) (body : Reader)
  : Request :=
  {| Method := method; ReqURL := removeEmptyPort u;
     ReqHeader := ReqHeader r; ReqBody := body |}.

(** The writer after a relay whose status code [WriteHeader] accepts. *)
Definition relayed (w : ResponseRecorder) (resp : Response) : ResponseRecorder :=
  let h := copy_headers (range_Header (RespHeader resp)) (HeaderMap w) in
  {| Code := StatusCode resp;
     HeaderMap := match io_ReadAll (RespBody resp) with
                  | Some _ => h
                  | None => error_headers h
                  end;
     Body := Body w +:+
             match io_ReadAll (RespBody resp) with
             | Some body => body
             | None => "GHISA: Failed to read response body" +:+ LF
             end;
     wroteHeader := true;
     snapHeader := Some h |}.

(** The forwarding rule for methods other than OPTIONS and POST as the
    specification words it: the outbound request carries the method of
    the inbound one. *)
Definition same_method_forwarding (r : Request) (σ : World) : Prop :=
  Method r <> "OPTIONS" -> Method r <> MethodPost ->
  forall target u,
    url_param r = Some target -> target <> "" -> url_Parse target = Some u ->
    exists req,
      outbound (proxyHandler NewRecorder r σ) = [req] /\
      Method req = Method r /\
      ReqBody req = NoBody /\
      ReqHeader req = ReqHeader r /\
      exists u', url_Parse (url_String u) = Some u' /\
                 ReqURL req = removeEmptyPort u'.


(** The relay of a GET as the specification words it, for any status code
    of the target. *)
Definition GET_relay_as_worded (r : Request) (σ : World) : Prop :=
  Method r = MethodGet ->
  forall target u u' resp σ' body,
    url_param r = Some target -> target <> "" -> url_Parse target = Some u ->
    url_Parse (url_String u) = Some u' ->
    client_Do (forwarded MethodGet u' r NoBody) σ = (Some resp, σ') ->
    io_ReadAll (RespBody resp) = Some body ->
    exists w',
      writer (proxyHandler NewRecorder r σ) = Ret w' /\
      io_ReadAll (RespBody (Result w')) = Some body /\
      StatusCode (Result w') = StatusCode resp.

(** The forwarding of a POST as the specification words it: the shape of
    the outbound request, and the body relayed from a target that echoes,
    for any status code of the target. *)
Definition POST_forward_as_worded (r : Request) (σ : World) : Prop :=
  Method r = MethodPost ->
  forall target u body,
    url_param r = Some target -> target <> "" -> url_Parse target = Some u ->
    io_ReadAll (ReqBody r) = Some body ->
    (forall req,
        outbound (proxyHandler NewRecorder r σ) = [req] ->
        Method req = MethodPost /\
        io_ReadAll (ReqBody req) = Some body /\
        ReqHeader req = ReqHeader r) /\
    (forall req resp σ',
        outbound (proxyHandler NewRecorder r σ) = [req] ->
        client_Do req σ = (Some resp, σ') ->
        io_ReadAll (RespBody resp) = io_ReadAll (ReqBody req) ->
        exists w',
          writer (proxyHandler NewRecorder r σ) = Ret w' /\
          io_ReadAll (RespBody (Result w')) = Some body).

End Vocabulary.

(** ** A test bed

    Stand-ins for the URL library and for the network, in the manner of
    server_test.go: a backend that answers 200, echoes the body of a POST
    and says "backend response" to everything else. They serve to run the
    handlers on concrete requests. *)
Module TestBed.

Record url := {
  u_raw : string;
  u_path : string;
  u_query : gmap string (list string)
}.

Definition is_hex (c : ascii) : bool :=
  let n := nat_of_ascii c in
  is_digit c || ((65 <=? n) && (n <=? 70)) || ((97 <=? n) && (n <=? 102)).

(** A percent sign must be followed by two hexadecimal digits. *)
Fixpoint escapes_ok (s : string) : bool :=
  match s with
  | EmptyString => true
  | String c s' =>
      if Ascii.eqb c "%"%char then
        match s' with
        | String a (String b _) => is_hex a && is_hex b && escapes_ok s'
        | _ => false
        end
      else escapes_ok s'
  end.

Definition parse (s : string) : option url :=
  if escapes_ok s then Some {| u_raw := s; u_path := ""; u_query := ∅ |}
  else None.

#[export] Instance net_url : NetURL := {|
  URL := url;
  url_Parse := parse;
  url_String := u_raw;
  url_Query := u_query;
  url_Path := u_path;
  removeEmptyPort := fun u => u
|}.

(** The backend of [TestProxyHandler]; the world counts the requests it
    has served. *)
Definition backend (req : Request) (served : nat) : option Response * nat :=
  let body := if String.eqb (Method req) MethodPost
              then default "" (io_ReadAll (ReqBody req))
              else "backend response" in
  (Some {| StatusCode := 200;
           RespHeader := {[ "Content-Type" := ["text/plain; charset=utf-8"] ]};
           RespBody := Data body |},
   S served).

#[export] Instance net_http : NetHTTP := {|
  World := nat;
  client_Do := backend;
  DetectContentType := fun _ => "text/plain; charset=utf-8";
  range_Header := map_to_list;
  range_Header_perm := fun h => Permutation_refl (map_to_list h)
|}.

(** An inbound request for [/?url=target]. *)
Definition newTestRequest (method target body : string) : Request :=
  {| Method := method;
     ReqURL := {| u_raw := "/?url=" +:+ target; u_path := "/";
                  u_query := {[ "url" := [target] ]} |};
     ReqHeader := {[ "Content-Type" := ["application/json"] ]};
     ReqBody := Data body |}.

Definition echo_url : string := "http://backend/echo".

(** The backend before and after its first request. *)
Definition world0 : @World net_url net_http := 0.
Definition world1 : @World net_url net_http := 1.

Definition echo_target : @URL net_url :=
  {| u_raw := echo_url; u_path := ""; u_query := ∅ |}.

(** What the backend answers to the request [req]. *)
Definition answer_to (req : Request) : Response :=
  default {| StatusCode := 0; RespHeader := ∅; RespBody := NoBody |}
    (backend req 0).1.

Definition health_request : @Request net_url :=
  {| Method := "GET";
     ReqURL := {| u_raw := "/health"; u_path := "/health"; u_query := ∅ |};
     ReqHeader := ∅; ReqBody := NoBody |}.

End TestBed.

(** ** net/url: query escaping *)

Definition ishex (c : ascii) : bool :=
  let n := nat_of_ascii c in
  is_digit c || ((97 <=? n) && (n <=? 102)) || ((65 <=? n) && (n <=? 70)).

Definition unhex (c : ascii) : nat :=
  let n := nat_of_ascii c in
  if is_digit c then n - 48
  else if (97 <=? n) && (n <=? 102) then n - 97 + 10
  else if (65 <=? n) && (n <=? 70) then n - 65 + 10
  else 0.

(** The digit of [n] in the table ["0123456789ABCDEF"]. *)
Definition upperhex (n : nat) : ascii :=
  if n <? 10 then ascii_of_nat (48 + n) else ascii_of_nat (65 + (n - 10)).

(** [shouldEscape] in the mode [encodeQueryComponent]: everything but
    letters, digits and [- _ . ~] is escaped. *)
Definition shouldEscape (c : ascii) : bool :=
  negb (is_lower c || is_upper c || is_digit c ||
        existsb (Nat.eqb (nat_of_ascii c)) [45; 95; 46; 126]).

(** [url.QueryEscape]: a space becomes a plus sign, any other byte to
    escape becomes a percent sign and two upper-case hexadecimal digits. *)
Fixpoint QueryEscape (s : string) : string :=
  match s with
  | EmptyString => EmptyString
  | String c s' =>
      if Ascii.eqb c " "%char then String "+"%char (QueryEscape s')
      else if shouldEscape c then
        String "%"%char
          (String (upperhex (nat_of_ascii c / 16))
             (String (upperhex (nat_of_ascii c mod 16)) (QueryEscape s')))
      else String c (QueryEscape s')
  end.

(** [url.QueryUnescape]: [None] stands for the escape error raised by a
    percent sign that two hexadecimal digits do not follow. *)
Fixpoint QueryUnescape (s : string) : option string :=
  match s with
  | EmptyString => Some EmptyString
  | String c s' =>
      if Ascii.eqb c "%"%char then
        match s' with
        | String a (String b rest) =>
            if ishex a && ishex b then
              String (ascii_of_nat (unhex a * 16 + unhex b)) <$> QueryUnescape rest
            else None
        | _ => None
        end
      else if Ascii.eqb c "+"%char then String " "%char <$> QueryUnescape s'
      else String c <$> QueryUnescape s'
  end.

(** [strings.Cut] at a one-byte separator: the text before its first
    occurrence and the text after it, or the whole text and nothing. *)
Fixpoint cut (sep : ascii) (s : string) : string * string :=
  match s with
  | EmptyString => (EmptyString, EmptyString)
  | String c s' =>
      if Ascii.eqb c sep then (EmptyString, s')
      else let (before, after) := cut sep s' in (String c before, after)
  end.

(** The pieces that repeated cuts at [sep] take off a text, in order. *)
Fixpoint pieces (sep : ascii) (s : string) : list string :=
  match s with
  | EmptyString => [EmptyString]
  | String c s' =>
      if Ascii.eqb c sep then EmptyString :: pieces sep s'
      else match pieces sep s' with
           | [] => [String c EmptyString]
           | p :: ps => String c p :: ps
           end
  end.

Fixpoint contains_byte (c : ascii) (s : string) : bool :=
  match s with
  | EmptyString => false
  | String c' s' => Ascii.eqb c' c || contains_byte c s'
  end.

(** One turn of the loop of [url.ParseQuery] on the piece [pair] cut off
    at an ampersand: pieces with a semicolon, empty pieces and pieces with
    a bad escape are skipped. *)
Definition parse_pair (m : gmap string (list string)) (pair : string)
  : gmap string (list string) :=
  if contains_byte ";"%char pair then m
  else if String.eqb pair "" then m
  else
    let (key, value) := cut "="%char pair in
    match QueryUnescape key with
    | None => m
    | Some key =>
        match QueryUnescape value with
        | None => m
        | Some value => <[key := default [] (m !! key) ++ [value]]> m
        end
    end.

(** [url.ParseQuery], as [URL.Query] uses it: the error is dropped. The
    loop cuts the query at each ampersand in turn; an empty rest ends it,
    which is the same as skipping an empty last piece. *)
Definition ParseQuery (query : string) : gmap string (list string) :=
  foldl parse_pair ∅ (pieces "&"%char query).

(** ** server_test.go *)

(** The query string of the request that [newTestRequest] builds for
    [targetURL], and what [r.URL.Query()] makes of it. *)
Definition newTestRequest_RawQuery (targetURL : string) : string :=
  "url=" +:+ QueryEscape targetURL.

Definition newTestRequest_Query (targetURL : string) : gmap string (list string) :=
  ParseQuery (newTestRequest_RawQuery targetURL).

(** [checkCorsHeaders]: the messages it reports through [t.Error]. *)
Definition checkCorsHeaders (w : ResponseRecorder) : list string :=
  (if String.eqb (Header_Get (HeaderMap w) "Access-Control-Allow-Origin") "*"
   then []
   else ["CORS header Access-Control-Allow-Origin is missing or incorrect"]) ++
  (if String.eqb (Header_Get (HeaderMap w) "Access-Control-Allow-Methods")
        "GET, POST, OPTIONS"
   then []
   else ["CORS header Access-Control-Allow-Methods is missing or incorrect"]) ++
  (if String.eqb (Header_Get (HeaderMap w) "Access-Control-Allow-Headers")
        "Content-Type"
   then []
   else ["CORS header Access-Control-Allow-Headers is missing or incorrect"]).

(** ** A faulty test bed

    A network that misbehaves, to run the failure paths: the world counts
    the calls to the client; the first call fails, the second is answered
    with the status code 42, the third with a 502 whose body cannot be
    read, and the later ones with a 200 that carries CORS headers of its
    own. The URL library is the one of the test bed, or one whose rendering
    of a URL never parses. *)
Module FaultyBed.

Definition client (req : @Request TestBed.net_url) (calls : nat)
  : option Response * nat :=
  match calls with
  | 0 => (None, 1)
  | 1 => (Some {| StatusCode := 42; RespHeader := ∅; RespBody := Data "" |}, 2)
  | 2 =>
      (Some {| StatusCode := 502;
               RespHeader := {[ "Content-Type" := ["text/html"] ]};
               RespBody := Broken |}, 3)
  | S n =>
      (Some {| StatusCode := 200;
               RespHeader :=
                 {[ "Access-Control-Allow-Origin" := ["https://example.org"] ]};
               RespBody := Data "hello" |}, S (S n))
  end.

#[export] Instance net_http : @NetHTTP TestBed.net_url := {|
  World := nat;
  client_Do := client;
  DetectContentType := fun _ => "text/plain; charset=utf-8";
  range_Header := map_to_list;
  range_Header_perm := fun h => Permutation_refl (map_to_list h)
|}.

(** The state of the world before the call of the given rank. *)
Definition calls (n : nat) : @World TestBed.net_url net_http := n.

(** A target that echoes the body of every request, as the backend of the
    tests does for a POST, but under the status code 42. *)
Definition echo42 (req : @Request TestBed.net_url) (calls : nat)
  : option Response * nat :=
  (Some {| StatusCode := 42; RespHeader := {[ "X-Echo" := ["yes"] ]};
           RespBody := Data (default "" (io_ReadAll (ReqBody req))) |},
   S calls).

Definition echo42_http : @NetHTTP TestBed.net_url := {|
  World := nat;
  client_Do := echo42;
  DetectContentType := fun _ => "text/plain; charset=utf-8";
  range_Header := map_to_list;
  range_Header_perm := fun h => Permutation_refl (map_to_list h)
|}.

Definition echo42_start : @World TestBed.net_url echo42_http := 0.

Definition post_request : @Request TestBed.net_url :=
  TestBed.newTestRequest "POST" TestBed.echo_url "test body".

Definition post_forwarded : @Request TestBed.net_url :=
  forwarded MethodPost TestBed.echo_target post_request (Data "test body").

Definition echo42_answer : Response :=
  default {| StatusCode := 0; RespHeader := ∅; RespBody := NoBody |}
    (echo42 post_forwarded 0).1.

(** A URL library whose rendering of a URL is never a URL. *)
Definition unrendered : NetURL := {|
  URL := TestBed.url;
  url_Parse := TestBed.parse;
  url_String := fun _ => "%";
  url_Query := TestBed.u_query;
  url_Path := TestBed.u_path;
  removeEmptyPort := fun u => u
|}.

Definition unrendered_http : @NetHTTP unrendered := {|
  World := nat;
  client_Do := fun _ n => (None, S n);
  DetectContentType := fun _ => "text/plain; charset=utf-8";
  range_Header := map_to_list;
  range_Header_perm := fun h => Permutation_refl (map_to_list h)
|}.

(** The request [/?url=target] for the library [unrendered]. *)
Definition unrendered_target (target : string) : @URL unrendered :=
  {| TestBed.u_raw := "/?url=" +:+ target; TestBed.u_path := "/";
     TestBed.u_query := {[ "url" := [target] ]} |}.

Definition unrendered_request (method target : string) : @Request unrendered :=
  {| Method := method;
     ReqURL := unrendered_target target;
     ReqHeader := ∅;
     ReqBody := NoBody |}.

Definition unrendered_start : @World unrendered unrendered_http := 0.

Definition unrendered_echo : @URL unrendered :=
  {| TestBed.u_raw := TestBed.echo_url; TestBed.u_path := "";
     TestBed.u_query := ∅ |}.

(** The GET request of the tests, the request the gateway makes of it,
    and the answer of the faulty network to its call of rank [n]. *)
Definition get_request : @Request TestBed.net_url :=
  TestBed.newTestRequest "GET" TestBed.echo_url "".

Definition get_forwarded : @Request TestBed.net_url :=
  forwarded MethodGet TestBed.echo_target get_request NoBody.

Definition answer (n : nat) : Response :=
  default {| StatusCode := 0; RespHeader := ∅; RespBody := NoBody |}
    (client get_forwarded n).1.

End FaultyBed.

(** ** More vocabulary *)

(** The values the gateway itself puts under [key] before it copies the
    headers of the target: its own value under a CORS name, and whatever
    the header map [h] of the writer held under any other name. *)
Definition gateway_values (h : Header) (key : string) : list string :=
  let k := CanonicalMIMEHeaderKey key in
  if String.eqb k "Access-Control-Allow-Origin" then ["*"]
  else if String.eqb k "Access-Control-Allow-Methods" then ["GET, POST, OPTIONS"]
  else if String.eqb k "Access-Control-Allow-Headers" then ["Content-Type"]
  else Header_Values h key.

(** The request [r] with another body. *)
Definition with_body `{NetURL} (r : Request) (body : Reader) : Request :=
  {| Method := Method r; ReqURL := ReqURL r; ReqHeader := ReqHeader r;
     ReqBody := body |}.

(** * Properties *)

(** ** Header maps *)

Lemma leads_Get h key value : leads h key value -> Header_Get h key = value.
Proof. intros [rest E]. unfold Header_Get, Header_Values. by rewrite E. Qed.

Lemma leads_Set h key value : leads (Header_Set h key value) key value.
Proof. exists []. unfold Header_Set. by rewrite lookup_insert_eq. Qed.

Lemma leads_Set_other h key value key' value' :
  CanonicalMIMEHeaderKey key' <> CanonicalMIMEHeaderKey key ->
  leads h key value -> leads (Header_Set h key' value') key value.
Proof.
  intros Hne [rest E]. exists rest. unfold Header_Set.
  by rewrite lookup_insert_ne.
Qed.

Lemma leads_Del_other h key value key' :
  CanonicalMIMEHeaderKey key' <> CanonicalMIMEHeaderKey key ->
  leads h key value -> leads (Header_Del h key') key value.
Proof.
  intros Hne [rest E]. exists rest. unfold Header_Del.
  by rewrite lookup_delete_ne.
Qed.

Lemma Header_Values_Add h key value key' :
  Header_Values (Header_Add h key' value) key =
    Header_Values h key ++
    (if decide (CanonicalMIMEHeaderKey key' = CanonicalMIMEHeaderKey key)
     then [value] else []).
Proof.
  unfold Header_Add. unfold Header_Values at 1.
  case_decide as E.
  - rewrite E, lookup_insert_eq. simpl. unfold Header_Values. by rewrite E.
  - rewrite lookup_insert_ne by done. by rewrite app_nil_r.
Qed.

Lemma leads_Values h key value :
  leads h key value <-> exists rest, Header_Values h key = value :: rest.
Proof.
  unfold leads, Header_Values. split; intros [rest E]; exists rest.
  - by rewrite E.
  - destruct (h !! CanonicalMIMEHeaderKey key); simpl in E; by subst.
Qed.

Lemma leads_Add h key value key' value' :
  leads h key value -> leads (Header_Add h key' value') key value.
Proof.
  rewrite !leads_Values. intros [rest E].
  rewrite Header_Values_Add, E. eauto.
Qed.

Lemma Header_Values_add_values values : forall h key' key,
  Header_Values (add_values h key' values) key =
    Header_Values h key ++
    (if decide (CanonicalMIMEHeaderKey key' = CanonicalMIMEHeaderKey key)
     then values else []).
Proof.
  induction values as [|v values IH]; intros h key' key; simpl.
  - case_decide; by rewrite app_nil_r.
  - unfold add_values in *. simpl. rewrite IH, Header_Values_Add.
    case_decide; simpl; by rewrite <- ?app_assoc, ?app_nil_r.
Qed.

Lemma Header_Values_copy_headers entries : forall h key,
  Header_Values (copy_headers entries h) key =
    Header_Values h key ++ values_for key entries.
Proof.
  induction entries as [|[k values] entries IH]; intros h key; simpl.
  - by rewrite app_nil_r.
  - unfold copy_headers in *. simpl.
    rewrite IH, Header_Values_add_values. by rewrite <- app_assoc.
Qed.

Lemma leads_copy_headers entries h key value :
  leads h key value -> leads (copy_headers entries h) key value.
Proof.
  rewrite !leads_Values. intros [rest E].
  rewrite Header_Values_copy_headers, E. eauto.
Qed.


(** ** The CORS headers *)

Lemma cors_lead_cors h : cors_lead h -> cors h.
Proof. intros (H1 & H2 & H3). repeat split; by apply leads_Get. Qed.

Lemma cors_lead_set_cors w : cors_lead (HeaderMap (set_cors w)).
Proof.
  unfold cors_lead, set_cors; simpl. repeat split.
  - do 2 (apply leads_Set_other; [by vm_compute|]). apply leads_Set.
  - apply leads_Set_other; [by vm_compute|]. apply leads_Set.
  - apply leads_Set.
Qed.

Lemma cors_lead_error_headers h : cors_lead h -> cors_lead (error_headers h).
Proof.
  intros (H1 & H2 & H3). unfold error_headers.
  repeat split;
    do 2 (apply leads_Set_other; [by vm_compute|]);
    (apply leads_Del_other; [by vm_compute|]); done.
Qed.

Lemma cors_lead_copy_headers entries h :
  cors_lead h -> cors_lead (copy_headers entries h).
Proof.
  intros (H1 & H2 & H3). repeat split; by apply leads_copy_headers.
Qed.

(** ** The recorder *)

Section RecorderFacts.
Context `{NetHTTP}.

Lemma Write_committed w buf :
  wroteHeader w = true ->
  Write w buf =
    Ret {| Code := Code w; HeaderMap := HeaderMap w; Body := Body w +:+ buf;
           wroteHeader := true; snapHeader := snapHeader w |}.
Proof. intros E. unfold Write, writeHeader. rewrite E. simpl. by rewrite E. Qed.

(** On a writer that has committed nothing yet, [http.Error] commits
    [code] with the error headers and writes the message and a line
    feed. *)
Lemma http_Error_fresh w msg code :
  wroteHeader w = false -> validWriteHeaderCode code = true ->
  http_Error w msg code =
    Ret {| Code := code; HeaderMap := error_headers (HeaderMap w);
           Body := Body w +:+ (msg +:+ LF); wroteHeader := true;
           snapHeader := Some (error_headers (HeaderMap w)) |}.
Proof.
  intros E V. unfold http_Error, WriteHeader. simpl. rewrite E, V. simpl.
  unfold Fprintln. by rewrite Write_committed.
Qed.

(** Once the status is committed, [http.Error] only appends to the body
    (and changes the live header map, which is no longer sent). *)
Lemma http_Error_committed w msg code :
  wroteHeader w = true ->
  http_Error w msg code =
    Ret {| Code := Code w; HeaderMap := error_headers (HeaderMap w);
           Body := Body w +:+ (msg +:+ LF); wroteHeader := true;
           snapHeader := snapHeader w |}.
Proof.
  intros E. unfold http_Error, WriteHeader. simpl. rewrite E. simpl.
  unfold Fprintln. by rewrite Write_committed.
Qed.

Lemma wroteHeader_set_cors w : wroteHeader (set_cors w) = wroteHeader w.
Proof. reflexivity. Qed.

End RecorderFacts.

(** ** The forwarding handler *)

Section ProxyFacts.
Context `{NetHTTP}.

Lemma Values_Get_url r :
  Values_Get (url_Query (ReqURL r)) "url" = default "" (url_param r).
Proof.
  unfold Values_Get, url_param.
  destruct (url_Query (ReqURL r) !! "url") as [[|v vs]|]; reflexivity.
Qed.

Lemma proxyHandler_OPTIONS w r σ :
  Method r = "OPTIONS" ->
  proxyHandler w r σ = {| writer := Ret (set_cors w); world := σ; outbound := [] |}.
Proof. intros E. unfold proxyHandler. by rewrite E. Qed.

Lemma proxyHandler_missing w r σ :
  Method r <> "OPTIONS" -> default "" (url_param r) = "" ->
  proxyHandler w r σ =
    {| writer := http_Error (set_cors w) "Missing url parameter" StatusBadRequest;
       world := σ; outbound := [] |}.
Proof.
  intros Hm E. unfold proxyHandler.
  apply String.eqb_neq in Hm. rewrite Hm, Values_Get_url, E. reflexivity.
Qed.

Lemma proxyHandler_invalid w r σ target :
  Method r <> "OPTIONS" -> url_param r = Some target -> target <> "" ->
  url_Parse target = None ->
  proxyHandler w r σ =
    {| writer := http_Error (set_cors w) "Invalid url parameter" StatusBadRequest;
       world := σ; outbound := [] |}.
Proof.
  intros Hm E Hne Hp. unfold proxyHandler.
  apply String.eqb_neq in Hm. apply String.eqb_neq in Hne.
  rewrite Hm, Values_Get_url, E. simpl. by rewrite Hne, Hp.
Qed.

Lemma http_NewRequest_GET s body :
  http_NewRequest MethodGet s body =
    (fun u => {| Method := MethodGet; ReqURL := removeEmptyPort u;
                 ReqHeader := ∅; ReqBody := client_body body |}) <$> url_Parse s.
Proof. unfold http_NewRequest. simpl. by destruct (url_Parse s). Qed.

Lemma http_NewRequest_POST s body :
  http_NewRequest MethodPost s body =
    (fun u => {| Method := MethodPost; ReqURL := removeEmptyPort u;
                 ReqHeader := ∅; ReqBody := client_body body |}) <$> url_Parse s.
Proof. unfold http_NewRequest. simpl. by destruct (url_Parse s). Qed.

(** Any method other than OPTIONS and POST, with a target that parses. *)
Lemma proxyHandler_other w r σ target u :
  Method r <> "OPTIONS" -> Method r <> MethodPost ->
  url_param r = Some target -> target <> "" -> url_Parse target = Some u ->
  proxyHandler w r σ =
    match url_Parse (url_String u) with
    | None =>
        {| writer := http_Error (set_cors w) "GHISA: Failed to create request"
                       StatusInternalServerError;
           world := σ; outbound := [] |}
    | Some u' => relay (set_cors w) (forwarded MethodGet u' r NoBody) σ
    end.
Proof.
  intros Hm Hp E Hne Hu. unfold proxyHandler.
  apply String.eqb_neq in Hm. apply String.eqb_neq in Hp.
  apply String.eqb_neq in Hne.
  rewrite Hm, Values_Get_url, E. simpl. rewrite Hne, Hu, Hp.
  rewrite http_NewRequest_GET. by destruct (url_Parse (url_String u)).
Qed.

(** POST, with a target that parses and a body that can be read. *)
Lemma proxyHandler_POST w r σ target u body :
  Method r = MethodPost ->
  url_param r = Some target -> target <> "" -> url_Parse target = Some u ->
  io_ReadAll (ReqBody r) = Some body ->
  proxyHandler w r σ =
    match url_Parse (url_String u) with
    | None =>
        {| writer := http_Error (set_cors w) "GHISA: Failed to create request"
                       StatusInternalServerError;
           world := σ; outbound := [] |}
    | Some u' =>
        relay (set_cors w) (forwarded MethodPost u' r (client_body (Data body))) σ
    end.
Proof.
  intros Hm E Hne Hu Hb. unfold proxyHandler.
  apply String.eqb_neq in Hne.
  rewrite Hm, Values_Get_url, E. simpl. rewrite Hne, Hu, Hb.
  rewrite http_NewRequest_POST. by destruct (url_Parse (url_String u)).
Qed.

(** *** The relay *)

Lemma relay_outbound w req σ : outbound (relay w req σ) = [req].
Proof. unfold relay. by destruct (client_Do req σ) as [[resp|] σ']. Qed.

Lemma relay_world w req σ : world (relay w req σ) = (client_Do req σ).2.
Proof. unfold relay. by destruct (client_Do req σ) as [[resp|] σ']. Qed.

Lemma relay_failure w req σ σ' :
  client_Do req σ = (None, σ') ->
  writer (relay w req σ) =
    http_Error w "GHISA: Failed to make request" StatusInternalServerError.
Proof. intros E. unfold relay. by rewrite E. Qed.

Lemma relay_success w req σ resp σ' :
  wroteHeader w = false ->
  client_Do req σ = (Some resp, σ') ->
  writer (relay w req σ) =
    if validWriteHeaderCode (StatusCode resp) then Ret (relayed w resp)
    else Panic (StatusCode resp).
Proof.
  intros Hw E. unfold relay. rewrite E. simpl.
  unfold WriteHeader. simpl. rewrite Hw.
  destruct (validWriteHeaderCode (StatusCode resp)); [|done]. simpl.
  unfold relayed.
  destruct (io_ReadAll (RespBody resp)) as [body|].
  - by rewrite Write_committed.
  - by rewrite http_Error_committed.
Qed.

Local Ltac refuse :=
  left; eexists _, _; (split; [|reflexivity]); reflexivity.

(** The three ways a run can go, decided by the request alone: the
    preflight short-circuit, a refusal before any network activity, or a
    forward attempt. *)
Lemma proxyHandler_plan w r :
  (forall σ, proxyHandler w r σ =
               {| writer := Ret (set_cors w); world := σ; outbound := [] |}) \/
  (exists msg code,
      validWriteHeaderCode code = true /\
      forall σ, proxyHandler w r σ =
                  {| writer := http_Error (set_cors w) msg code;
                     world := σ; outbound := [] |}) \/
  (exists req, forall σ, proxyHandler w r σ = relay (set_cors w) req σ).
Proof.
  unfold proxyHandler.
  destruct (String.eqb (Method r) "OPTIONS"); [by left|right].
  destruct (String.eqb _ ""); [refuse|].
  destruct (url_Parse _) as [u|]; [|refuse].
  destruct (String.eqb (Method r) MethodPost).
  - destruct (io_ReadAll (ReqBody r)); [|refuse].
    destruct (http_NewRequest _ _ _); [right; by eexists|refuse].
  - destruct (http_NewRequest _ _ _); [right; by eexists|refuse].
Qed.

Lemma proxyHandler_cases w r σ :
  proxyHandler w r σ = {| writer := Ret (set_cors w); world := σ; outbound := [] |} \/
  (exists msg code,
      validWriteHeaderCode code = true /\
      proxyHandler w r σ =
        {| writer := http_Error (set_cors w) msg code; world := σ; outbound := [] |}) \/
  (exists req, proxyHandler w r σ = relay (set_cors w) req σ).
Proof.
  destruct (proxyHandler_plan w r) as [E|[(msg & code & V & E)|[req E]]];
    [left|right; left|right; right]; eauto.
Qed.

(** The writer after a relay depends on the world through the answer of
    the client alone. *)
Lemma relay_writer w req σ :
  writer (relay w req σ) =
    match (client_Do req σ).1 with
    | None =>
        http_Error w "GHISA: Failed to make request" StatusInternalServerError
    | Some resp =>
        w ← WriteHeader
              (update_Header (copy_headers (range_Header (RespHeader resp))) w)
              (StatusCode resp);
        match io_ReadAll (RespBody resp) with
        | None =>
            http_Error w "GHISA: Failed to read response body"
              StatusInternalServerError
        | Some body => Write w body
        end
    end.
Proof. unfold relay. by destruct (client_Do req σ) as [[resp|] σ']. Qed.

(** The handler keeps nothing from one run to the next: in two worlds
    where the client answers its request alike, it responds alike. *)
Lemma proxyHandler_stateless w r σ1 σ2 :
  (forall req, req ∈ outbound (proxyHandler w r σ1) ->
               (client_Do req σ1).1 = (client_Do req σ2).1) ->
  writer (proxyHandler w r σ2) = writer (proxyHandler w r σ1) /\
  outbound (proxyHandler w r σ2) = outbound (proxyHandler w r σ1).
Proof.
  intros Hstatic.
  destruct (proxyHandler_plan w r) as [E|[(msg & code & V & E)|[req E]]].
  - by rewrite !E.
  - by rewrite !E.
  - rewrite !E in *. rewrite !relay_outbound in *. split; [|done].
    rewrite !relay_writer, Hstatic; [done|]. apply list_elem_of_singleton.
    done.
Qed.

End ProxyFacts.

(** * The specification, claim by claim *)

Section Specification.
Context `{NetHTTP}.

Lemma valid_code_range code :
  100 <= code <= 999 -> validWriteHeaderCode code = true.
Proof.
  intros [Hlo Hhi]. unfold validWriteHeaderCode.
  apply andb_true_intro. split; by apply Nat.leb_le.
Qed.

(** C4. An OPTIONS request, whatever its query, ends at once: the writer
    holds the three CORS headers and nothing else has happened to it (no
    status committed, hence the default 200, and an empty body); the
    outcome does not depend on the url parameter or on the URL parser, no
    request is handed to the client and the world is untouched. *)
Theorem proxy_preflight (r : Request) (σ : World) :
  Method r = "OPTIONS" ->
  proxyHandler NewRecorder r σ =
    {| writer := Ret preflight; world := σ; outbound := [] |} /\
  wroteHeader preflight = false /\
  StatusCode (Result preflight) = 200 /\
  io_ReadAll (RespBody (Result preflight)) = Some "" /\
  cors (RespHeader (Result preflight)).
Proof.
  intros E. split; [by apply proxyHandler_OPTIONS|].
  repeat split; vm_compute; reflexivity.
Qed.

(** C2. A request other than OPTIONS whose url parameter is absent or
    empty is answered 400 with the body "Missing url parameter" and a
    line feed; no request is handed to the client. *)
Theorem proxy_missing_url (r : Request) (σ : World) :
  Method r <> "OPTIONS" ->
  url_param r = None \/ url_param r = Some "" ->
  exists w',
    proxyHandler NewRecorder r σ =
      {| writer := Ret w'; world := σ; outbound := [] |} /\
    StatusCode (Result w') = 400 /\
    io_ReadAll (RespBody (Result w')) = Some ("Missing url parameter" +:+ LF).
Proof.
  intros Hm Hp. eexists. split.
  - rewrite proxyHandler_missing; [|done|by destruct Hp as [-> | ->]].
    by rewrite http_Error_fresh.
  - split; reflexivity.
Qed.

(** C3. A request other than OPTIONS whose url parameter is not empty
    and does not parse is answered 400 with the body "Invalid url
    parameter" and a line feed; no request is handed to the client. *)
Theorem proxy_invalid_url (r : Request) (σ : World) (target : string) :
  Method r <> "OPTIONS" ->
  url_param r = Some target -> target <> "" ->
  url_Parse target = None ->
  exists w',
    proxyHandler NewRecorder r σ =
      {| writer := Ret w'; world := σ; outbound := [] |} /\
    StatusCode (Result w') = 400 /\
    io_ReadAll (RespBody (Result w')) = Some ("Invalid url parameter" +:+ LF).
Proof.
  intros Hm Hp Hne Hu. eexists. split.
  - rewrite (proxyHandler_invalid _ _ _ target) by done.
    by rewrite http_Error_fresh.
  - split; reflexivity.
Qed.

(** C1, amended. For a request whose method is neither OPTIONS nor POST
    and whose url parameter parses, the request handed to the client is a
    GET, whatever the inbound method: it has no body, the headers of the
    inbound request, and the URL that [http.NewRequest] makes of the
    rendering of the parsed target (no request at all when that rendering
    does not parse). *)
Theorem proxy_other_methods_as_GET (r : Request) (σ : World)
    (target : string) (u : URL) :
  Method r <> "OPTIONS" -> Method r <> MethodPost ->
  url_param r = Some target -> target <> "" -> url_Parse target = Some u ->
  outbound (proxyHandler NewRecorder r σ) =
    match url_Parse (url_String u) with
    | Some u' =>
        [ {| Method := "GET"; ReqURL := removeEmptyPort u';
             ReqHeader := ReqHeader r; ReqBody := NoBody |} ]
    | None => []
    end.
Proof.
  intros Hm Hp E Hne Hu.
  rewrite (proxyHandler_other _ _ _ target u) by done.
  destruct (url_Parse (url_String u)); [|done].
  by rewrite relay_outbound.
Qed.

(** C5. Whatever the request, a run on a writer with nothing committed
    ends with the three CORS headers both in the headers sent (the
    snapshot taken when the status was committed, so they were set before
    it) and in the live header map. The one run that produces no response
    is the panic of [WriteHeader] on a target's status code that does not
    have three digits. *)
Theorem proxy_cors_always (w : ResponseRecorder) (r : Request) (σ : World) :
  uncommitted w ->
  match writer (proxyHandler w r σ) with
  | Ret w' => cors (RespHeader (Result w')) /\ cors (HeaderMap w')
  | Panic code =>
      validWriteHeaderCode code = false /\
      exists req resp σ',
        outbound (proxyHandler w r σ) = [req] /\
        client_Do req σ = (Some resp, σ') /\ StatusCode resp = code
  end.
Proof.
  intros [Hw Hs].
  pose proof (cors_lead_set_cors w) as Hc.
  destruct (proxyHandler_cases w r σ) as [E|[(msg & code & V & E)|[req E]]];
    rewrite E; clear E.
  - simpl. unfold Result. simpl. rewrite Hs. simpl.
    split; by apply cors_lead_cors.
  - simpl. rewrite http_Error_fresh by done. simpl.
    split; by apply cors_lead_cors, cors_lead_error_headers.
  - destruct (client_Do req σ) as [[resp|] σ'] eqn:Ed.
    + rewrite (relay_success _ _ _ resp σ') by done.
      destruct (validWriteHeaderCode (StatusCode resp)) eqn:V.
      * simpl. split; apply cors_lead_cors.
        -- by apply cors_lead_copy_headers.
        -- destruct (io_ReadAll (RespBody resp));
             [|apply cors_lead_error_headers]; by apply cors_lead_copy_headers.
      * split; [done|]. exists req, resp, σ'. by rewrite relay_outbound.
    + rewrite (relay_failure _ _ _ σ') by done.
      rewrite http_Error_fresh by done. simpl.
      split; by apply cors_lead_cors, cors_lead_error_headers.
Qed.

(** C6, amended. A GET request whose url parameter parses, whose outbound
    request is built and answered under a status code of three digits
    (100 to 999, those [WriteHeader] accepts), and whose answer can be
    read in full, is answered with exactly the body and the status code
    of the target. *)
Theorem proxy_GET_relays (r : Request) (σ σ' : World) (target : string)
    (u u' : URL) (resp : Response) (body : string) :
  Method r = MethodGet ->
  url_param r = Some target -> target <> "" -> url_Parse target = Some u ->
  url_Parse (url_String u) = Some u' ->
  client_Do (forwarded MethodGet u' r NoBody) σ = (Some resp, σ') ->
  io_ReadAll (RespBody resp) = Some body ->
  100 <= StatusCode resp <= 999 ->
  exists w',
    writer (proxyHandler NewRecorder r σ) = Ret w' /\
    io_ReadAll (RespBody (Result w')) = Some body /\
    StatusCode (Result w') = StatusCode resp.
Proof.
  intros Hm E Hne Hu Hu' Hdo Hb Hcode.
  rewrite (proxyHandler_other _ _ _ target u); [|by rewrite Hm..|done|done|done].
  rewrite Hu', (relay_success _ _ _ resp σ') by done.
  rewrite valid_code_range by done.
  eexists. split; [reflexivity|]. simpl. rewrite Hb. split; [done|].
  destruct Hcode as [Hlo _]. destruct (StatusCode resp); [lia|done].
Qed.


(** C8, amended. A POST request whose url parameter parses and whose body
    can be read is forwarded as a POST with exactly the bytes of that body
    and with the header map of the inbound request in place of the one
    [http.NewRequest] made, to the URL made of the rendering of the parsed
    target. When the target answers that request with the body it was
    sent, under a status code of three digits, the body relayed to the
    caller is the body of the inbound request. *)
Theorem proxy_POST_forwards (r : Request) (σ : World) (target : string)
    (u : URL) (body : string) :
  Method r = MethodPost ->
  url_param r = Some target -> target <> "" -> url_Parse target = Some u ->
  io_ReadAll (ReqBody r) = Some body ->
  outbound (proxyHandler NewRecorder r σ) =
    match url_Parse (url_String u) with
    | Some u' =>
        [ {| Method := "POST"; ReqURL := removeEmptyPort u';
             ReqHeader := ReqHeader r; ReqBody := client_body (Data body) |} ]
    | None => []
    end /\
  io_ReadAll (client_body (Data body)) = Some body /\
  forall req resp σ',
    outbound (proxyHandler NewRecorder r σ) = [req] ->
    client_Do req σ = (Some resp, σ') ->
    io_ReadAll (RespBody resp) = io_ReadAll (ReqBody req) ->
    100 <= StatusCode resp <= 999 ->
    exists w',
      writer (proxyHandler NewRecorder r σ) = Ret w' /\
      io_ReadAll (RespBody (Result w')) = Some body.
Proof.
  intros Hm E Hne Hu Hb.
  assert (io_ReadAll (client_body (Data body)) = Some body) as Hbytes
    by by destruct body.
  rewrite (proxyHandler_POST _ _ _ target u body) by done.
  destruct (url_Parse (url_String u)) as [u'|]; [|by repeat split].
  rewrite relay_outbound. split; [done|]. split; [done|].
  intros req resp σ' [= <-] Hdo Hecho Hcode.
  rewrite (relay_success _ _ _ resp σ') by done.
  rewrite valid_code_range by done.
  eexists. split; [reflexivity|]. simpl in *. by rewrite Hecho, Hbytes.
Qed.

(** C9. The same GET request forwarded twice, the second time in the
    world the first run left, against a target that answers the
    gateway's request alike both times, gets the same response both
    times: same body and same status code (the same writer, indeed). *)
Theorem proxy_GET_twice (r : Request) (σ : World) :
  Method r = MethodGet ->
  (forall req,
      req ∈ outbound (proxyHandler NewRecorder r σ) ->
      (client_Do req σ).1 =
      (client_Do req (world (proxyHandler NewRecorder r σ))).1) ->
  writer (proxyHandler NewRecorder r (world (proxyHandler NewRecorder r σ))) =
    writer (proxyHandler NewRecorder r σ) /\
  forall w1 w2,
    writer (proxyHandler NewRecorder r σ) = Ret w1 ->
    writer (proxyHandler NewRecorder r (world (proxyHandler NewRecorder r σ)))
      = Ret w2 ->
    RespBody (Result w2) = RespBody (Result w1) /\
    StatusCode (Result w2) = StatusCode (Result w1).
Proof.
  intros _ Hstatic.
  destruct (proxyHandler_stateless NewRecorder r σ _ Hstatic) as [Ew _].
  split; [done|]. intros w1 w2 E1 E2. rewrite Ew, E1 in E2.
  by injection E2 as <-.
Qed.

(** C10. The health handler looks at the method first: a request that is
    not a GET is answered 405 with "Method not allowed" and a line feed,
    whatever its path; the answer is 404 exactly when the request is a GET
    for a path other than /health; and GET /health is answered 200 with
    "Server is healthy", without a line feed. *)
Theorem health_responses (req : Request) :
  exists w',
    healthHandler NewRecorder req = Ret w' /\
    (Method req <> MethodGet ->
       StatusCode (Result w') = 405 /\
       io_ReadAll (RespBody (Result w')) = Some ("Method not allowed" +:+ LF)) /\
    (StatusCode (Result w') = 404 <->
       Method req = MethodGet /\ url_Path (ReqURL req) <> "/health") /\
    (Method req = MethodGet -> url_Path (ReqURL req) = "/health" ->
       StatusCode (Result w') = 200 /\
       io_ReadAll (RespBody (Result w')) = Some "Server is healthy").
Proof.
  unfold healthHandler, http_NotFound.
  destruct (String.eqb_spec (Method req) MethodGet) as [Em|Em]; simpl.
  - destruct (String.eqb_spec (url_Path (ReqURL req)) "/health") as [Ep|Ep];
      simpl.
    + eexists. split; [by rewrite Write_committed|]. simpl.
      split; [done|]. split; [|done]. split; [done|]. by intros [_ ?].
    + eexists. split; [by rewrite http_Error_fresh|]. simpl.
      split; [done|]. split; done.
  - eexists. split; [by rewrite http_Error_fresh|]. simpl.
    split; [done|]. split; [|done]. split; [done|]. by intros [? _].
Qed.

End Specification.

(** * The claims on the test bed *)

Section OnTheTestBed.
Import TestBed.

(** C1 fails as worded: an inbound DELETE leaves the gateway as a GET. *)
Lemma DELETE_leaves_as_GET :
  ~ same_method_forwarding (newTestRequest "DELETE" echo_url "") world0.
Proof.
  intros Hc.
  destruct (Hc ltac:(discriminate) ltac:(discriminate) echo_url echo_target
              eq_refl ltac:(discriminate) eq_refl)
    as (req & Hout & Hm & _).
  vm_compute in Hout. injection Hout as <-. discriminate Hm.
Qed.

Lemma proxy_other_methods_as_GET_witness :
  outbound (proxyHandler NewRecorder (newTestRequest "DELETE" echo_url "") world0) =
    [ {| Method := "GET"; ReqURL := echo_target;
         ReqHeader := ReqHeader (newTestRequest "DELETE" echo_url "");
         ReqBody := NoBody |} ].
Proof.
  apply (proxy_other_methods_as_GET (newTestRequest "DELETE" echo_url "") world0
           echo_url echo_target);
    [discriminate | discriminate | reflexivity | discriminate | reflexivity].
Defined.

Lemma proxy_missing_url_witness :
  exists w',
    proxyHandler NewRecorder
      {| Method := "GET";
         ReqURL := {| u_raw := "/"; u_path := "/"; u_query := ∅ |};
         ReqHeader := ∅; ReqBody := NoBody |} world0 =
      {| writer := Ret w'; world := world0; outbound := [] |} /\
    StatusCode (Result w') = 400 /\
    io_ReadAll (RespBody (Result w')) = Some ("Missing url parameter" +:+ LF).
Proof.
  apply proxy_missing_url; [discriminate | left; reflexivity].
Defined.

Lemma proxy_invalid_url_witness :
  exists w',
    proxyHandler NewRecorder (newTestRequest "GET" "http://%" "") world0 =
      {| writer := Ret w'; world := world0; outbound := [] |} /\
    StatusCode (Result w') = 400 /\
    io_ReadAll (RespBody (Result w')) = Some ("Invalid url parameter" +:+ LF).
Proof.
  apply (proxy_invalid_url _ _ "http://%");
    [discriminate | reflexivity | discriminate | reflexivity].
Defined.

Lemma proxy_preflight_witness :
  proxyHandler NewRecorder (newTestRequest "OPTIONS" "http://%" "") world0 =
    {| writer := Ret preflight; world := world0; outbound := [] |} /\
  wroteHeader preflight = false /\
  StatusCode (Result preflight) = 200 /\
  io_ReadAll (RespBody (Result preflight)) = Some "" /\
  cors (RespHeader (Result preflight)).
Proof. apply proxy_preflight. reflexivity. Defined.

Lemma proxy_cors_always_witness :
  match writer (proxyHandler NewRecorder (newTestRequest "GET" "http://%" "") world0) with
  | Ret w' => cors (RespHeader (Result w')) /\ cors (HeaderMap w')
  | Panic code =>
      validWriteHeaderCode code = false /\
      exists req resp σ',
        outbound (proxyHandler NewRecorder (newTestRequest "GET" "http://%" "") world0)
          = [req] /\
        client_Do req world0 = (Some resp, σ') /\ StatusCode resp = code
  end.
Proof.
  apply (proxy_cors_always NewRecorder (newTestRequest "GET" "http://%" "") world0).
  split; reflexivity.
Defined.

Lemma proxy_GET_relays_witness :
  exists w',
    writer (proxyHandler NewRecorder (newTestRequest "GET" echo_url "") world0) = Ret w' /\
    io_ReadAll (RespBody (Result w')) = Some "backend response" /\
    StatusCode (Result w') = 200.
Proof.
  apply (proxy_GET_relays (newTestRequest "GET" echo_url "") world0 world1 echo_url
           echo_target echo_target
           (answer_to (forwarded MethodGet echo_target
                         (newTestRequest "GET" echo_url "") NoBody))
           "backend response");
    [reflexivity | reflexivity | discriminate | reflexivity | reflexivity
    | reflexivity | reflexivity | simpl; lia].
Defined.


Lemma proxy_POST_forwards_witness :
  outbound (proxyHandler NewRecorder (newTestRequest "POST" echo_url "test body")
              world0) =
    [ {| Method := "POST"; ReqURL := echo_target;
         ReqHeader := ReqHeader (newTestRequest "POST" echo_url "test body");
         ReqBody := Data "test body" |} ] /\
  exists w',
    writer (proxyHandler NewRecorder (newTestRequest "POST" echo_url "test body")
              world0) = Ret w' /\
    io_ReadAll (RespBody (Result w')) = Some "test body".
Proof.
  destruct (proxy_POST_forwards (newTestRequest "POST" echo_url "test body")
              world0 echo_url echo_target "test body")
    as (Hout & _ & Hecho);
    [reflexivity | reflexivity | discriminate | reflexivity | reflexivity |].
  split; [exact Hout|].
  apply (Hecho _ (answer_to (forwarded MethodPost echo_target
                               (newTestRequest "POST" echo_url "test body")
                               (Data "test body")))
           world1 Hout);
    [reflexivity | reflexivity | simpl; lia].
Defined.

(** C6 fails as worded: a target that answers a GET with the status code
    42 and a body that can be read gets nothing relayed, the handler
    panics in [WriteHeader]. *)
Lemma GET_answer_042_not_relayed :
  ~ GET_relay_as_worded FaultyBed.get_request (FaultyBed.calls 1).
Proof.
  intros Hc.
  destruct (Hc eq_refl echo_url echo_target echo_target (FaultyBed.answer 1)
              (FaultyBed.calls 2) "" eq_refl ltac:(discriminate) eq_refl
              eq_refl eq_refl eq_refl)
    as (w' & Hw & _).
  vm_compute in Hw. discriminate Hw.
Qed.

(** C8 fails as worded: against a target that echoes the body under the
    status code 42, the POST is forwarded as said but nothing is relayed,
    the handler panics in [WriteHeader]. *)
Lemma POST_echo_042_not_relayed :
  ~ POST_forward_as_worded FaultyBed.post_request FaultyBed.echo42_start.
Proof.
  intros Hc.
  destruct (Hc eq_refl echo_url echo_target "test body" eq_refl
              ltac:(discriminate) eq_refl eq_refl)
    as [_ Hecho].
  destruct (Hecho FaultyBed.post_forwarded FaultyBed.echo42_answer
              (S FaultyBed.echo42_start) eq_refl eq_refl eq_refl)
    as (w' & Hw & _).
  vm_compute in Hw. discriminate Hw.
Qed.

Lemma proxy_GET_twice_witness :
  writer (proxyHandler NewRecorder (newTestRequest "GET" echo_url "")
            (world (proxyHandler NewRecorder (newTestRequest "GET" echo_url "")
                      world0))) =
    writer (proxyHandler NewRecorder (newTestRequest "GET" echo_url "") world0) /\
  forall w1 w2,
    writer (proxyHandler NewRecorder (newTestRequest "GET" echo_url "") world0)
      = Ret w1 ->
    writer (proxyHandler NewRecorder (newTestRequest "GET" echo_url "")
              (world (proxyHandler NewRecorder (newTestRequest "GET" echo_url "")
                        world0))) = Ret w2 ->
    RespBody (Result w2) = RespBody (Result w1) /\
    StatusCode (Result w2) = StatusCode (Result w1).
Proof.
  apply (proxy_GET_twice (newTestRequest "GET" echo_url "") world0);
    [reflexivity | intros req _; reflexivity].
Defined.

Lemma health_responses_witness :
  exists w',
    healthHandler NewRecorder health_request = Ret w' /\
    StatusCode (Result w') = 200 /\
    io_ReadAll (RespBody (Result w')) = Some "Server is healthy".
Proof.
  destruct (health_responses health_request) as (w' & E & _ & _ & Hok).
  exists w'. split; [exact E|]. apply Hok; reflexivity.
Defined.

End OnTheTestBed.

(** * Beyond the claims *)

(** ** The test requests of server_test.go *)

Lemma escaped_byte_decodes (c : ascii) :
  ishex (upperhex (nat_of_ascii c / 16)) = true /\
  ishex (upperhex (nat_of_ascii c mod 16)) = true /\
  ascii_of_nat (unhex (upperhex (nat_of_ascii c / 16)) * 16 +
                unhex (upperhex (nat_of_ascii c mod 16))) = c.
Proof. destruct c as [[] [] [] [] [] [] [] []]; vm_compute; done. Qed.

(** A byte that is kept as it is stands for itself when unescaping, and
    is none of the separators of a query string. *)
Lemma kept_byte_plain (c : ascii) :
  shouldEscape c = false ->
  Ascii.eqb c "%"%char = false /\ Ascii.eqb c "+"%char = false /\
  Ascii.eqb c "&"%char = false /\ Ascii.eqb c ";"%char = false /\
  Ascii.eqb c "="%char = false.
Proof. destruct c as [[] [] [] [] [] [] [] []]; vm_compute; done. Qed.

Lemma upperhex_plain (n : nat) (sep : ascii) :
  n < 16 -> is_digit sep = false -> is_upper sep = false ->
  Ascii.eqb (upperhex n) sep = false.
Proof.
  intros Hn Hd Hu.
  destruct (Ascii.eqb_spec (upperhex n) sep) as [<-|]; [|done].
  do 16 (destruct n as [|n]; [by vm_compute in Hd, Hu|]). lia.
Qed.

Lemma QueryEscape_cons (c : ascii) (s : string) :
  QueryEscape (String c s) =
    if Ascii.eqb c " "%char then String "+"%char (QueryEscape s)
    else if shouldEscape c then
      String "%"%char
        (String (upperhex (nat_of_ascii c / 16))
           (String (upperhex (nat_of_ascii c mod 16)) (QueryEscape s)))
    else String c (QueryEscape s).
Proof. reflexivity. Qed.

Lemma QueryUnescape_escape (a b : ascii) (rest : string) :
  QueryUnescape (String "%"%char (String a (String b rest))) =
    if ishex a && ishex b then
      String (ascii_of_nat (unhex a * 16 + unhex b)) <$> QueryUnescape rest
    else None.
Proof. reflexivity. Qed.

Lemma QueryUnescape_plus (s : string) :
  QueryUnescape (String "+"%char s) = String " "%char <$> QueryUnescape s.
Proof. reflexivity. Qed.

Lemma QueryUnescape_plain (c : ascii) (s : string) :
  Ascii.eqb c "%"%char = false -> Ascii.eqb c "+"%char = false ->
  QueryUnescape (String c s) = String c <$> QueryUnescape s.
Proof. intros H1 H2. cbn [QueryUnescape]. by rewrite H1, H2. Qed.

Lemma contains_byte_cons (sep c : ascii) (s : string) :
  contains_byte sep (String c s) = Ascii.eqb c sep || contains_byte sep s.
Proof. reflexivity. Qed.

Lemma QueryUnescape_QueryEscape (s : string) :
  QueryUnescape (QueryEscape s) = Some s.
Proof.
  induction s as [|c s IH]; [done|]. rewrite QueryEscape_cons.
  destruct (Ascii.eqb_spec c " "%char) as [->|Hsp].
  - by rewrite QueryUnescape_plus, IH.
  - destruct (shouldEscape c) eqn:Esc.
    + destruct (escaped_byte_decodes c) as (H1 & H2 & H3).
      by rewrite QueryUnescape_escape, H1, H2, H3, IH.
    + destruct (kept_byte_plain c Esc) as (H1 & H2 & _).
      by rewrite QueryUnescape_plain, IH.
Qed.

(** An escaped text holds no ampersand, semicolon or equals sign. *)
Lemma QueryEscape_no_separator (sep : ascii) (s : string) :
  sep = "&"%char \/ sep = ";"%char \/ sep = "="%char ->
  contains_byte sep (QueryEscape s) = false.
Proof.
  intros Hsep.
  assert (is_digit sep = false /\ is_upper sep = false /\
          Ascii.eqb "+"%char sep = false /\ Ascii.eqb "%"%char sep = false)
    as (Hd & Hu & Hplus & Hpct)
    by (destruct Hsep as [->|[->| ->]]; by vm_compute).
  induction s as [|c s IH]; [done|]. rewrite QueryEscape_cons.
  destruct (Ascii.eqb c " "%char).
  - by rewrite contains_byte_cons, Hplus, IH.
  - destruct (shouldEscape c) eqn:Esc.
    + rewrite !contains_byte_cons, Hpct, IH.
      rewrite !upperhex_plain; try done.
      * by apply Nat.mod_upper_bound.
      * apply Nat.Div0.div_lt_upper_bound.
        pose proof (nat_ascii_bounded c). lia.
    + rewrite contains_byte_cons, IH.
      destruct (kept_byte_plain c Esc) as (_ & _ & H1 & H2 & H3).
      destruct Hsep as [->|[->| ->]]; by rewrite ?H1, ?H2, ?H3.
Qed.

Lemma pieces_whole (sep : ascii) (s : string) :
  contains_byte sep s = false -> pieces sep s = [s].
Proof.
  induction s as [|c s IH]; [done|]. simpl.
  destruct (Ascii.eqb c sep); [done|]. simpl. intros E. by rewrite IH.
Qed.

(** X13. Whatever the target — spaces, ampersands, percent signs, bytes
    above 127 — the query string that newTestRequest writes for it parses
    back to a single url parameter holding exactly the target, which is
    the query the test bed gives its requests. *)
Theorem newTestRequest_carries_target (method targetURL body : string) :
  newTestRequest_Query targetURL = {[ "url" := [targetURL] ]} /\
  Values_Get (newTestRequest_Query targetURL) "url" = targetURL /\
  url_Query (ReqURL (TestBed.newTestRequest method targetURL body)) =
    newTestRequest_Query targetURL.
Proof.
  assert (newTestRequest_Query targetURL = {[ "url" := [targetURL] ]}) as E.
  { unfold newTestRequest_Query, newTestRequest_RawQuery, ParseQuery.
    pose proof (QueryEscape_no_separator "&" targetURL (or_introl eq_refl))
      as Hamp.
    pose proof (QueryEscape_no_separator ";" targetURL
                  (or_intror (or_introl eq_refl))) as Hsemi.
    pose proof (QueryUnescape_QueryEscape targetURL) as Hback.
    generalize dependent (QueryEscape targetURL). intros escaped Hamp Hsemi Hback.
    assert (pieces "&" ("url=" +:+ escaped) = ["url=" +:+ escaped]) as ->
      by (apply pieces_whole; exact Hamp).
    cbn [foldl]. unfold parse_pair.
    assert (contains_byte ";" ("url=" +:+ escaped) = false) as ->
      by exact Hsemi.
    change ("url=" +:+ escaped =? "")%string with false.
    change (cut "=" ("url=" +:+ escaped)) with ("url", escaped).
    change (QueryUnescape "url") with (Some "url").
    cbn iota beta. rewrite Hback. reflexivity. }
  split; [done|]. split.
  - rewrite E. unfold Values_Get. by rewrite lookup_singleton_eq.
  - by rewrite E.
Qed.

(** ** More on header maps *)

Lemma Header_Values_Set h key value key' :
  Header_Values (Header_Set h key' value) key =
    if decide (CanonicalMIMEHeaderKey key' = CanonicalMIMEHeaderKey key)
    then [value] else Header_Values h key.
Proof.
  unfold Header_Set. unfold Header_Values at 1. case_decide as E.
  - by rewrite E, lookup_insert_eq.
  - by rewrite lookup_insert_ne.
Qed.

Lemma Header_Values_Del h key key' :
  Header_Values (Header_Del h key') key =
    if decide (CanonicalMIMEHeaderKey key' = CanonicalMIMEHeaderKey key)
    then [] else Header_Values h key.
Proof.
  unfold Header_Del. unfold Header_Values at 1. case_decide as E.
  - by rewrite E, lookup_delete_eq.
  - by rewrite lookup_delete_ne.
Qed.

Lemma Header_Values_set_cors w key :
  Header_Values (HeaderMap (set_cors w)) key = gateway_values (HeaderMap w) key.
Proof.
  unfold set_cors, gateway_values. simpl. rewrite !Header_Values_Set.
  change (CanonicalMIMEHeaderKey "Access-Control-Allow-Headers")
    with "Access-Control-Allow-Headers".
  change (CanonicalMIMEHeaderKey "Access-Control-Allow-Methods")
    with "Access-Control-Allow-Methods".
  change (CanonicalMIMEHeaderKey "Access-Control-Allow-Origin")
    with "Access-Control-Allow-Origin".
  destruct (String.eqb_spec (CanonicalMIMEHeaderKey key)
              "Access-Control-Allow-Origin") as [E1|H1];
    [|destruct (String.eqb_spec (CanonicalMIMEHeaderKey key)
                 "Access-Control-Allow-Methods") as [E2|H2];
      [|destruct (String.eqb_spec (CanonicalMIMEHeaderKey key)
                   "Access-Control-Allow-Headers") as [E3|H3]]];
    repeat case_decide; congruence.
Qed.

(** ** The failures of the forwarding handler *)

Section Failures.
Context `{NetHTTP}.

Lemma Result_relayed w resp :
  RespHeader (Result (relayed w resp)) =
    copy_headers (range_Header (RespHeader resp)) (HeaderMap w).
Proof. reflexivity. Qed.

(** X1. A POST whose url parameter parses but whose body cannot be read
    is answered 500 with "GHISA: Failed to read request body" and a line
    feed; nothing is handed to the client and the world is untouched. *)
Theorem proxy_POST_unreadable_body (r : Request) (σ : World)
    (target : string) (u : URL) :
  Method r = MethodPost ->
  url_param r = Some target -> target <> "" -> url_Parse target = Some u ->
  io_ReadAll (ReqBody r) = None ->
  exists w',
    proxyHandler NewRecorder r σ =
      {| writer := Ret w'; world := σ; outbound := [] |} /\
    StatusCode (Result w') = 500 /\
    io_ReadAll (RespBody (Result w')) =
      Some ("GHISA: Failed to read request body" +:+ LF).
Proof.
  intros Hm E Hne Hu Hb. eexists. split.
  - unfold proxyHandler. apply String.eqb_neq in Hne.
    rewrite Hm, Values_Get_url, E. simpl. rewrite Hne, Hu, Hb.
    by rewrite http_Error_fresh.
  - split; reflexivity.
Qed.

(** X2. When the url parameter parses but the rendering of the parsed URL
    does not parse again, no request can be built: the answer is 500 with
    "GHISA: Failed to create request" and a line feed, for a POST with a
    readable body as for any other method but OPTIONS, and nothing is
    handed to the client. *)
Theorem proxy_request_not_built (r : Request) (σ : World)
    (target : string) (u : URL) :
  Method r <> "OPTIONS" ->
  url_param r = Some target -> target <> "" -> url_Parse target = Some u ->
  url_Parse (url_String u) = None ->
  (Method r = MethodPost -> io_ReadAll (ReqBody r) <> None) ->
  exists w',
    proxyHandler NewRecorder r σ =
      {| writer := Ret w'; world := σ; outbound := [] |} /\
    StatusCode (Result w') = 500 /\
    io_ReadAll (RespBody (Result w')) =
      Some ("GHISA: Failed to create request" +:+ LF).
Proof.
  intros Hm E Hne Hu Hu' Hb. eexists. split.
  - destruct (String.eqb_spec (Method r) MethodPost) as [Hp|Hp].
    + destruct (io_ReadAll (ReqBody r)) as [body|] eqn:Eb; [|by destruct Hb].
      rewrite (proxyHandler_POST _ _ _ target u body) by done.
      rewrite Hu'. by rewrite http_Error_fresh.
    + rewrite (proxyHandler_other _ _ _ target u) by done.
      rewrite Hu'. by rewrite http_Error_fresh.
  - split; reflexivity.
Qed.

(** X3. When the client fails on the request the handler hands to it, the
    answer is 500 with "GHISA: Failed to make request" and a line feed;
    that request is the only one of the run (no second attempt), and the
    world is the one the client left. *)
Theorem proxy_client_failure (r : Request) (σ σ' : World) (req : Request) :
  outbound (proxyHandler NewRecorder r σ) = [req] ->
  client_Do req σ = (None, σ') ->
  exists w',
    proxyHandler NewRecorder r σ =
      {| writer := Ret w'; world := σ'; outbound := [req] |} /\
    StatusCode (Result w') = 500 /\
    io_ReadAll (RespBody (Result w')) =
      Some ("GHISA: Failed to make request" +:+ LF).
Proof.
  intros Hout Hdo.
  destruct (proxyHandler_cases NewRecorder r σ)
    as [E|[(msg & code & V & E)|[req' E]]];
    rewrite E in *; clear E; [done..|].
  rewrite relay_outbound in Hout. injection Hout as ->.
  eexists. split.
  - unfold relay. rewrite Hdo. by rewrite http_Error_fresh.
  - split; reflexivity.
Qed.

(** X4. When the target answers but its body cannot be read, the status
    is already committed: the caller gets the status code of the target,
    not 500, with "GHISA: Failed to read response body" and a line feed as
    the body; the headers sent are the gateway's and the target's, and the
    plain-text content type of the error is set on the live header map
    only. *)
Theorem proxy_unreadable_answer (r : Request) (σ σ' : World) (req : Request)
    (resp : Response) :
  outbound (proxyHandler NewRecorder r σ) = [req] ->
  client_Do req σ = (Some resp, σ') ->
  io_ReadAll (RespBody resp) = None ->
  100 <= StatusCode resp <= 999 ->
  exists w',
    writer (proxyHandler NewRecorder r σ) = Ret w' /\
    StatusCode (Result w') = StatusCode resp /\
    io_ReadAll (RespBody (Result w')) =
      Some ("GHISA: Failed to read response body" +:+ LF) /\
    Header_Values (RespHeader (Result w')) "Content-Type" =
      values_for "Content-Type" (range_Header (RespHeader resp)) /\
    Header_Get (HeaderMap w') "Content-Type" = "text/plain; charset=utf-8".
Proof.
  intros Hout Hdo Hb Hcode.
  destruct (proxyHandler_cases NewRecorder r σ)
    as [E|[(msg & code & V & E)|[req' E]]];
    rewrite E in *; clear E; [done..|].
  rewrite relay_outbound in Hout. injection Hout as ->.
  rewrite (relay_success _ _ _ resp σ') by done.
  rewrite valid_code_range by done.
  eexists. split; [reflexivity|]. split; [|split; [|split]].
  - simpl. destruct Hcode. destruct (StatusCode resp); [lia|done].
  - simpl. by rewrite Hb.
  - rewrite Result_relayed, Header_Values_copy_headers, Header_Values_set_cors.
    reflexivity.
  - unfold relayed. cbn [HeaderMap]. rewrite Hb.
    apply leads_Get. unfold error_headers.
    apply leads_Set_other; [by vm_compute|]. apply leads_Set.
Qed.

(** X5. Whatever the method, once the client has answered the request of
    the run with a status code of three digits and a body that can be
    read, the caller gets exactly that body and that status code. *)
Theorem proxy_relays_answer (r : Request) (σ σ' : World) (req : Request)
    (resp : Response) (body : string) :
  outbound (proxyHandler NewRecorder r σ) = [req] ->
  client_Do req σ = (Some resp, σ') ->
  io_ReadAll (RespBody resp) = Some body ->
  100 <= StatusCode resp <= 999 ->
  exists w',
    proxyHandler NewRecorder r σ =
      {| writer := Ret w'; world := σ'; outbound := [req] |} /\
    io_ReadAll (RespBody (Result w')) = Some body /\
    StatusCode (Result w') = StatusCode resp.
Proof.
  intros Hout Hdo Hb Hcode.
  destruct (proxyHandler_cases NewRecorder r σ)
    as [E|[(msg & code & V & E)|[req' E]]];
    rewrite E in *; clear E; [done..|].
  rewrite relay_outbound in Hout. injection Hout as ->.
  pose proof (relay_success (set_cors NewRecorder) req σ resp σ' eq_refl Hdo)
    as Hw.
  rewrite valid_code_range in Hw by done.
  pose proof (relay_world (set_cors NewRecorder) req σ) as Hworld.
  pose proof (relay_outbound (set_cors NewRecorder) req σ) as Hreq.
  rewrite Hdo in Hworld. simpl in Hworld.
  destruct (relay (set_cors NewRecorder) req σ) as [wr wo ob].
  simpl in *. subst. eexists. split; [reflexivity|].
  simpl. rewrite Hb. split; [done|].
  destruct Hcode; destruct (StatusCode resp); [lia|done].
Qed.

End Failures.

(** ** The shape of a run *)

Section Runs.
Context `{NetHTTP}.

Lemma invalid_code_range code :
  validWriteHeaderCode code = false <-> code < 100 \/ 999 < code.
Proof.
  unfold validWriteHeaderCode. rewrite andb_false_iff, !Nat.leb_gt. done.
Qed.

(** X6. On a writer with nothing committed, the handler panics exactly
    when the client answers the request of the run with a status code
    below 100 or above 999, and the panic carries that code; in every other
    case the run ends with a response. *)
Theorem proxy_panics_iff (w : ResponseRecorder) (r : Request) (σ : World)
    (code : nat) :
  uncommitted w ->
  writer (proxyHandler w r σ) = Panic code <->
  exists req resp σ',
    outbound (proxyHandler w r σ) = [req] /\
    client_Do req σ = (Some resp, σ') /\
    StatusCode resp = code /\ (code < 100 \/ 999 < code).
Proof.
  intros [Hw Hs].
  destruct (proxyHandler_cases w r σ) as [E|[(msg & c & V & E)|[req E]]];
    rewrite E; clear E.
  - simpl. split; [done|]. by intros (? & ? & ? & ? & _).
  - simpl. rewrite http_Error_fresh by done.
    split; [done|]. by intros (? & ? & ? & ? & _).
  - rewrite relay_outbound.
    destruct (client_Do req σ) as [[resp|] σ'] eqn:Ed.
    + rewrite (relay_success _ _ _ resp σ') by done.
      destruct (validWriteHeaderCode (StatusCode resp)) eqn:V.
      * split; [done|]. intros (req' & resp' & σ'' & [= <-] & Hdo & <- & Hc).
        rewrite Ed in Hdo. injection Hdo as <- <-.
        apply invalid_code_range in Hc. congruence.
      * split.
        -- intros [= <-]. exists req, resp, σ'.
           by rewrite <- invalid_code_range.
        -- intros (req' & resp' & σ'' & [= <-] & Hdo & <- & _).
           rewrite Ed in Hdo. by injection Hdo as <- <-.
    + rewrite (relay_failure _ _ _ σ') by done.
      rewrite http_Error_fresh by done. split; [done|].
      intros (req' & resp' & σ'' & [= <-] & Hdo & _).
      rewrite Ed in Hdo. done.
Qed.

(** X7. A run hands at most one request to the client: either none, and
    the world is as it was, or exactly one, and the world is the one that
    single call left. There is no second attempt on any path. *)
Theorem proxy_single_attempt (w : ResponseRecorder) (r : Request) (σ : World) :
  (outbound (proxyHandler w r σ) = [] /\ world (proxyHandler w r σ) = σ) \/
  (exists req,
      outbound (proxyHandler w r σ) = [req] /\
      world (proxyHandler w r σ) = (client_Do req σ).2).
Proof.
  destruct (proxyHandler_cases w r σ) as [E|[(msg & c & V & E)|[req E]]];
    rewrite E; clear E; [by left..|].
  right. exists req. by rewrite relay_outbound, relay_world.
Qed.

(** X8. The body of a request that is not a POST is never read: the run
    is the same whatever that body is, unreadable ones included, and the
    request handed to the client carries none of it. *)
Theorem proxy_ignores_body_unless_POST (w : ResponseRecorder) (r : Request)
    (σ : World) (body : Reader) :
  Method r <> MethodPost ->
  proxyHandler w (with_body r body) σ = proxyHandler w r σ /\
  forall req, req ∈ outbound (proxyHandler w r σ) -> ReqBody req = NoBody.
Proof.
  intros Hp. apply String.eqb_neq in Hp. split.
  - unfold proxyHandler, with_body. simpl. by rewrite Hp.
  - intros req. unfold proxyHandler.
    destruct (String.eqb (Method r) "OPTIONS"); simpl; [by intros ?%elem_of_nil|].
    destruct (String.eqb _ ""); simpl; [by intros ?%elem_of_nil|].
    destruct (url_Parse _) as [u|]; simpl; [|by intros ?%elem_of_nil].
    rewrite Hp, http_NewRequest_GET.
    destruct (url_Parse (url_String u)); simpl; [|by intros ?%elem_of_nil].
    rewrite relay_outbound. by intros ->%list_elem_of_singleton.
Qed.

(** X9. After a relay, the values sent under each header name are known
    exactly: under a CORS name, the gateway's value first (whatever the
    writer held there before is replaced) and then every value the target
    sent under that name, so a target with CORS headers of its own adds
    values instead of replacing the gateway's; under any other name, what
    the writer held followed by the values of the target. *)
Theorem proxy_sent_headers (w : ResponseRecorder) (r : Request)
    (σ σ' : World) (req : Request) (resp : Response) :
  uncommitted w ->
  outbound (proxyHandler w r σ) = [req] ->
  client_Do req σ = (Some resp, σ') ->
  100 <= StatusCode resp <= 999 ->
  exists w',
    writer (proxyHandler w r σ) = Ret w' /\
    forall key,
      Header_Values (RespHeader (Result w')) key =
        gateway_values (HeaderMap w) key ++
        values_for key (range_Header (RespHeader resp)).
Proof.
  intros [Hw Hs] Hout Hdo Hcode.
  destruct (proxyHandler_cases w r σ) as [E|[(msg & code & V & E)|[req' E]]];
    rewrite E in *; clear E; [done..|].
  rewrite relay_outbound in Hout. injection Hout as ->.
  rewrite (relay_success _ _ _ resp σ') by done.
  rewrite valid_code_range by done.
  eexists. split; [reflexivity|]. intros key.
  by rewrite Result_relayed, Header_Values_copy_headers, Header_Values_set_cors.
Qed.

(** X10. A run that hands nothing to the client always ends with a
    response of the gateway's own: 200 with an empty body for OPTIONS and
    for OPTIONS only, otherwise 400 or 500 with a plain-text content type
    and the nosniff option; the world is as it was. *)
Theorem proxy_own_responses (r : Request) (σ : World) :
  outbound (proxyHandler NewRecorder r σ) = [] ->
  exists w',
    proxyHandler NewRecorder r σ =
      {| writer := Ret w'; world := σ; outbound := [] |} /\
    ((Method r = "OPTIONS" /\ StatusCode (Result w') = 200 /\
      io_ReadAll (RespBody (Result w')) = Some "") \/
     (Method r <> "OPTIONS" /\
      (StatusCode (Result w') = 400 \/ StatusCode (Result w') = 500) /\
      Header_Get (RespHeader (Result w')) "Content-Type" =
        "text/plain; charset=utf-8" /\
      Header_Get (RespHeader (Result w')) "X-Content-Type-Options" = "nosniff")).
Proof.
  unfold proxyHandler.
  destruct (String.eqb_spec (Method r) "OPTIONS") as [Hm|Hm].
  { intros _. eexists. split; [reflexivity|]. left. by vm_compute. }
  assert (forall msg code,
            code = 400 \/ code = 500 ->
            exists w',
              {| writer := http_Error (set_cors NewRecorder) msg code;
                 world := σ; outbound := [] |} =
              {| writer := Ret w'; world := σ; outbound := [] |} /\
              ((Method r = "OPTIONS" /\ StatusCode (Result w') = 200 /\
                io_ReadAll (RespBody (Result w')) = Some "") \/
               (Method r <> "OPTIONS" /\
                (StatusCode (Result w') = 400 \/ StatusCode (Result w') = 500) /\
                Header_Get (RespHeader (Result w')) "Content-Type" =
                  "text/plain; charset=utf-8" /\
                Header_Get (RespHeader (Result w')) "X-Content-Type-Options" =
                  "nosniff"))) as refused.
  { intros msg code Hc. eexists. split.
    - rewrite http_Error_fresh; [done|done|by destruct Hc as [-> | ->]].
    - right. split; [done|]. split; [by destruct Hc as [-> | ->]; [left|right]|].
      split; reflexivity. }
  destruct (String.eqb _ ""); [intros _; apply refused; by left|].
  destruct (url_Parse _) as [u|]; [|intros _; apply refused; by left].
  destruct (String.eqb (Method r) MethodPost).
  - destruct (io_ReadAll (ReqBody r)); [|intros _; apply refused; by right].
    destruct (http_NewRequest _ _ _); [|intros _; apply refused; by right].
    by rewrite relay_outbound.
  - destruct (http_NewRequest _ _ _); [|intros _; apply refused; by right].
    by rewrite relay_outbound.
Qed.

(** On a writer with nothing committed, every run that returns leaves the
    CORS values first under their names in the live header map. *)
Lemma proxyHandler_live_cors w r σ w' :
  uncommitted w -> writer (proxyHandler w r σ) = Ret w' ->
  cors_lead (HeaderMap w').
Proof.
  intros [Hw Hs].
  pose proof (cors_lead_set_cors w) as Hc.
  destruct (proxyHandler_cases w r σ) as [E|[(msg & code & V & E)|[req E]]];
    rewrite E; clear E.
  - simpl. by intros [= <-].
  - simpl. rewrite http_Error_fresh by done. intros [= <-]. simpl.
    by apply cors_lead_error_headers.
  - destruct (client_Do req σ) as [[resp|] σ'] eqn:Ed.
    + rewrite (relay_success _ _ _ resp σ') by done.
      destruct (validWriteHeaderCode (StatusCode resp)); [|done].
      intros [= <-]. simpl.
      destruct (io_ReadAll (RespBody resp));
        [|apply cors_lead_error_headers]; by apply cors_lead_copy_headers.
    + rewrite (relay_failure _ _ _ σ') by done.
      rewrite http_Error_fresh by done. intros [= <-]. simpl.
      by apply cors_lead_error_headers.
Qed.

(** X12. The check of the test-suite, checkCorsHeaders, reports nothing
    on the writer that any run of the forwarding handler returns: the test
    helper and the handler agree on every path, error paths included. *)
Theorem checkCorsHeaders_passes (w : ResponseRecorder) (r : Request)
    (σ : World) (w' : ResponseRecorder) :
  uncommitted w ->
  writer (proxyHandler w r σ) = Ret w' ->
  checkCorsHeaders w' = [].
Proof.
  intros Hw Hret.
  destruct (cors_lead_cors _ (proxyHandler_live_cors w r σ w' Hw Hret))
    as (H1 & H2 & H3).
  unfold checkCorsHeaders. by rewrite H1, H2, H3.
Qed.

(** X11. The health handler never sets a CORS header: its responses carry
    no value under any of the three names. The 200 response has no header
    at all; the 404 and 405 responses have the plain-text content type and
    the nosniff option. *)
Theorem health_sends_no_cors (req : Request) :
  exists w',
    healthHandler NewRecorder req = Ret w' /\
    Header_Values (RespHeader (Result w')) "Access-Control-Allow-Origin" = [] /\
    Header_Values (RespHeader (Result w')) "Access-Control-Allow-Methods" = [] /\
    Header_Values (RespHeader (Result w')) "Access-Control-Allow-Headers" = [] /\
    (StatusCode (Result w') = 200 -> RespHeader (Result w') = ∅) /\
    (StatusCode (Result w') <> 200 ->
       Header_Values (RespHeader (Result w')) "Content-Type" =
         ["text/plain; charset=utf-8"] /\
       Header_Values (RespHeader (Result w')) "X-Content-Type-Options" =
         ["nosniff"]).
Proof.
  unfold healthHandler, http_NotFound.
  destruct (negb (String.eqb (Method req) MethodGet));
    [|destruct (negb (String.eqb (url_Path (ReqURL req)) "/health"))].
  - eexists. split; [by rewrite http_Error_fresh|]. by vm_compute.
  - eexists. split; [by rewrite http_Error_fresh|]. by vm_compute.
  - eexists. split; [simpl; by rewrite Write_committed|]. by vm_compute.
Qed.

End Runs.

(** ** The properties beyond the claims, on the test beds *)

Section OnTheFaultyBed.
Import TestBed.

Lemma proxy_POST_unreadable_body_witness :
  exists w',
    proxyHandler NewRecorder
      (with_body (newTestRequest "POST" echo_url "") Broken) world0 =
      {| writer := Ret w'; world := world0; outbound := [] |} /\
    StatusCode (Result w') = 500 /\
    io_ReadAll (RespBody (Result w')) =
      Some ("GHISA: Failed to read request body" +:+ LF).
Proof.
  apply (proxy_POST_unreadable_body
           (with_body (newTestRequest "POST" echo_url "") Broken) world0
           echo_url echo_target);
    [reflexivity | reflexivity | discriminate | reflexivity | reflexivity].
Defined.

Lemma proxy_request_not_built_witness :
  exists w',
    proxyHandler NewRecorder (FaultyBed.unrendered_request "GET" echo_url)
      FaultyBed.unrendered_start =
      ({| writer := Ret w'; world := FaultyBed.unrendered_start;
          outbound := [] |} : @Served _ FaultyBed.unrendered_http) /\
    StatusCode (Result w') = 500 /\
    io_ReadAll (RespBody (Result w')) =
      Some ("GHISA: Failed to create request" +:+ LF).
Proof.
  apply (proxy_request_not_built
           (FaultyBed.unrendered_request "GET" echo_url)
           FaultyBed.unrendered_start echo_url FaultyBed.unrendered_echo);
    [discriminate | reflexivity | discriminate | reflexivity | reflexivity
    | discriminate].
Defined.

Lemma proxy_client_failure_witness :
  exists w',
    proxyHandler NewRecorder FaultyBed.get_request (FaultyBed.calls 0) =
      {| writer := Ret w'; world := FaultyBed.calls 1;
         outbound := [FaultyBed.get_forwarded] |} /\
    StatusCode (Result w') = 500 /\
    io_ReadAll (RespBody (Result w')) =
      Some ("GHISA: Failed to make request" +:+ LF).
Proof.
  apply (proxy_client_failure FaultyBed.get_request (FaultyBed.calls 0)
           (FaultyBed.calls 1) FaultyBed.get_forwarded);
    reflexivity.
Defined.

Lemma proxy_unreadable_answer_witness :
  exists w',
    writer (proxyHandler NewRecorder FaultyBed.get_request (FaultyBed.calls 2))
      = Ret w' /\
    StatusCode (Result w') = 502 /\
    io_ReadAll (RespBody (Result w')) =
      Some ("GHISA: Failed to read response body" +:+ LF) /\
    Header_Values (RespHeader (Result w')) "Content-Type" =
      values_for "Content-Type" (range_Header (RespHeader (FaultyBed.answer 2))) /\
    Header_Get (HeaderMap w') "Content-Type" = "text/plain; charset=utf-8".
Proof.
  apply (proxy_unreadable_answer FaultyBed.get_request (FaultyBed.calls 2)
           (FaultyBed.calls 3) FaultyBed.get_forwarded (FaultyBed.answer 2));
    [reflexivity | reflexivity | reflexivity | simpl; lia].
Defined.

Lemma proxy_relays_answer_witness :
  exists w',
    proxyHandler NewRecorder FaultyBed.get_request (FaultyBed.calls 3) =
      {| writer := Ret w'; world := FaultyBed.calls 4;
         outbound := [FaultyBed.get_forwarded] |} /\
    io_ReadAll (RespBody (Result w')) = Some "hello" /\
    StatusCode (Result w') = 200.
Proof.
  apply (proxy_relays_answer FaultyBed.get_request (FaultyBed.calls 3)
           (FaultyBed.calls 4) FaultyBed.get_forwarded (FaultyBed.answer 3)
           "hello");
    [reflexivity | reflexivity | reflexivity | simpl; lia].
Defined.

Lemma proxy_panics_iff_witness :
  writer (proxyHandler NewRecorder FaultyBed.get_request (FaultyBed.calls 1))
    = Panic 42 <->
  exists req resp σ',
    outbound (proxyHandler NewRecorder FaultyBed.get_request (FaultyBed.calls 1))
      = [req] /\
    client_Do req (FaultyBed.calls 1) = (Some resp, σ') /\
    StatusCode resp = 42 /\ (42 < 100 \/ 999 < 42).
Proof.
  apply (proxy_panics_iff NewRecorder FaultyBed.get_request (FaultyBed.calls 1) 42).
  split; reflexivity.
Defined.

Lemma proxy_ignores_body_unless_POST_witness :
  proxyHandler NewRecorder
    (with_body (newTestRequest "DELETE" echo_url "payload") Broken) world0 =
    proxyHandler NewRecorder (newTestRequest "DELETE" echo_url "payload") world0 /\
  forall req,
    req ∈ outbound (proxyHandler NewRecorder
                      (newTestRequest "DELETE" echo_url "payload") world0) ->
    ReqBody req = NoBody.
Proof.
  apply (proxy_ignores_body_unless_POST NewRecorder
           (newTestRequest "DELETE" echo_url "payload") world0 Broken).
  discriminate.
Defined.

Lemma proxy_sent_headers_witness :
  exists w',
    writer (proxyHandler NewRecorder FaultyBed.get_request (FaultyBed.calls 3))
      = Ret w' /\
    forall key,
      Header_Values (RespHeader (Result w')) key =
        gateway_values (HeaderMap NewRecorder) key ++
        values_for key (range_Header (RespHeader (FaultyBed.answer 3))).
Proof.
  apply (proxy_sent_headers NewRecorder FaultyBed.get_request (FaultyBed.calls 3)
           (FaultyBed.calls 4) FaultyBed.get_forwarded (FaultyBed.answer 3));
    [split; reflexivity | reflexivity | reflexivity | simpl; lia].
Defined.

Lemma proxy_own_responses_witness :
  exists w',
    proxyHandler NewRecorder (newTestRequest "GET" "" "") world0 =
      {| writer := Ret w'; world := world0; outbound := [] |} /\
    ((Method (newTestRequest "GET" "" "") = "OPTIONS" /\
      StatusCode (Result w') = 200 /\
      io_ReadAll (RespBody (Result w')) = Some "") \/
     (Method (newTestRequest "GET" "" "") <> "OPTIONS" /\
      (StatusCode (Result w') = 400 \/ StatusCode (Result w') = 500) /\
      Header_Get (RespHeader (Result w')) "Content-Type" =
        "text/plain; charset=utf-8" /\
      Header_Get (RespHeader (Result w')) "X-Content-Type-Options" = "nosniff")).
Proof.
  apply (proxy_own_responses (newTestRequest "GET" "" "") world0).
  reflexivity.
Defined.

Lemma checkCorsHeaders_passes_witness :
  checkCorsHeaders
    (relayed (set_cors NewRecorder) (FaultyBed.answer 3)) = [].
Proof.
  apply (checkCorsHeaders_passes NewRecorder FaultyBed.get_request
           (FaultyBed.calls 3));
    [split; reflexivity | reflexivity].
Defined.

End OnTheFaultyBed.
